(** * Verification of the trade-exit resolution of [BacktestFramework]

    Shallow embedding of [src/src/enhanced_algo_test.py]
    ([BacktestFramework.execute_trade], [BacktestFramework.run_backtest]
    and the metric helpers), followed by the properties of the
    specification that concern them.

    Conventions of the embedding:
    - Python [float] and pandas [float64] values are IEEE 754 binary64
      numbers: Rocq's primitive floats, with the same rounding.
    - A [datetime] is the number of seconds of its wall clock since
      1970-01-01 00:00:00, an integer of [Z]; [.dt.date] is the number of
      whole days, and [timedelta(days=n)] is [n * 86400] seconds.
    - Exceptions are values of [Error]; a computation that can raise
      returns an [outcome].
    - Library functions whose code is not part of the repository
      ([pd.to_datetime] and [float] on strings, and [round]) are the
      fields of the class [Externals].
    - Prices read from a frame are numpy [float64] scalars: a division by
      zero yields an infinity or NaN, as in binary64, and raises nothing.
    - The market data dictionary maps each ticker to a frame of its own
      (no two tickers share one frame object). *)

From Stdlib Require Import ZArith Floats Ascii String List Bool Lia Sorted.
From stdpp Require Import base option list strings gmap.
Import ListNotations.

Set Warnings "-inexact-float".
Local Open Scope Z_scope.

(* ===================================================================== *)
(** * Part I: the embedding                                               *)
(* ===================================================================== *)

(** ** Binary64 comparisons and reductions *)

Module F64.

Definition is_nan (x : float) : bool := negb (PrimFloat.eqb x x).

(** [>=] and [>] of Python on floats. *)
Definition geb (x y : float) : bool := PrimFloat.leb y x.
Definition gtb (x y : float) : bool := PrimFloat.ltb y x.

(** [numpy.maximum] and [numpy.minimum] on two numbers that are not NaN. *)
Definition fmax (a b : float) : float := if PrimFloat.ltb a b then b else a.
Definition fmin (a b : float) : float := if PrimFloat.ltb b a then b else a.

(** [Series.max()] and [Series.min()] of pandas: NaN entries are skipped
    ([skipna=True]); the result is NaN when nothing is left. *)
Definition series_max (l : list float) : float :=
  match List.filter (fun x => negb (is_nan x)) l with
  | [] => PrimFloat.nan
  | x :: r => fold_left fmax r x
  end.

Definition series_min (l : list float) : float :=
  match List.filter (fun x => negb (is_nan x)) l with
  | [] => PrimFloat.nan
  | x :: r => fold_left fmin r x
  end.

(** Conversion of a Python [int] below [2^53] (a list length). *)
Definition of_nat (n : nat) : float := PrimFloat.of_uint63 (Uint63.of_Z (Z.of_nat n)).

End F64.

(** ** Exceptions *)

Inductive Error : Type :=
| MissingReferenceDate            (* ValueError("reference_date must be set to execute trades") *)
| UnsupportedTimeframe (tf : string) (* ValueError("Unsupported timeframe format: ...") *)
| InvalidLiteralForInt (s : string)  (* ValueError raised by int() *)
| OverflowError                   (* timedelta(days=...) or datetime + timedelta out of range *)
| DatetimeParseError              (* raised by pd.to_datetime *)
| NoEntryData (entry_time : Z)    (* ValueError("No data available at or after entry time ...") *)
| NoExitData (max_exit_time : Z)  (* ValueError("No data available at or after exit time ...") *)
| IndexError                      (* .iloc[0] on an empty selection *)
| KeyError (key : string)         (* response[key] on a missing key *)
| InvalidLiteralForFloat (s : string). (* ValueError raised by float() *)

(** The [DataUnavailable] failures of the specification: no bar at or after
    a required instant. *)
Definition DataUnavailable (e : Error) : bool :=
  match e with
  | NoEntryData _ | NoExitData _ => true
  | _ => false
  end.

Inductive outcome (A : Type) : Type :=
| Ok (a : A)
| Raise (e : Error).
Arguments Ok {A} a.
Arguments Raise {A} e.

Definition bind {A B : Type} (m : outcome A) (k : A -> outcome B) : outcome B :=
  match m with
  | Ok a => k a
  | Raise e => Raise e
  end.

Notation "'do' x <- m ; k" := (bind m (fun x => k))
  (at level 10, x name, m at level 100, k at level 200).

Definition outcome_to_option {A : Type} (m : outcome A) : option A :=
  match m with Ok a => Some a | Raise _ => None end.

(** ** Library functions taken as given *)

Class Externals : Type := {
  (** [pd.to_datetime] on one text cell: the instant it denotes, if any. *)
  to_datetime : string -> option Z;
  (** [float(s)] on a string. *)
  float_of_string : string -> option float;
  (** [round(x, 2)]. *)
  round2 : float -> float
}.

(** ** [int(s)] on ASCII text: blanks around, a sign, decimal digits with
    single underscores between them (CPython's limit on the number of
    digits is left out).

    The blanks [int] skips in ASCII text are the characters 9 to 13 and
    the space, 32; the separators 28 to 31, which [str.strip] also
    removes, are no blanks for [int]. Only ASCII text is read: a string
    is a list of bytes here, and [py_int] refuses every byte above 127,
    whereas [int] also reads the decimal digits and the blanks of other
    scripts. Timeframes with such characters are outside the embedding. *)

Definition is_space (c : ascii) : bool :=
  let n := nat_of_ascii c in
  ((9 <=? n)%nat && (n <=? 13)%nat) || (n =? 32)%nat.

Definition is_digit (c : ascii) : bool :=
  let n := nat_of_ascii c in (48 <=? n)%nat && (n <=? 57)%nat.

Definition digit_value (c : ascii) : Z := Z.of_nat (nat_of_ascii c) - 48.

Fixpoint lstrip (cs : list ascii) : list ascii :=
  match cs with
  | c :: r => if is_space c then lstrip r else cs
  | [] => []
  end.

Definition strip (cs : list ascii) : list ascii :=
  rev (lstrip (rev (lstrip cs))).

Fixpoint parse_digits (acc : Z) (after_digit : bool) (cs : list ascii) : option Z :=
  match cs with
  | [] => if after_digit then Some acc else None
  | c :: r =>
      if is_digit c then parse_digits (acc * 10 + digit_value c) true r
      else if Ascii.eqb c "_"%char && after_digit then parse_digits acc false r
      else None
  end.

Definition py_int (s : string) : option Z :=
  match strip (list_ascii_of_string s) with
  | c :: r =>
      if Ascii.eqb c "-"%char then Z.opp <$> parse_digits 0 false r
      else if Ascii.eqb c "+"%char then parse_digits 0 false r
      else parse_digits 0 false (c :: r)
  | [] => None
  end.

(** ** Time *)

Definition seconds_per_day : Z := 86400.

(** [datetime.min] and [datetime.max], in whole seconds. *)
Definition datetime_min : Z := -62135596800.
Definition datetime_max : Z := 253402300799.

(** [timedelta(days=n)]: the magnitude of [n] is at most 999999999. *)
Definition timedelta_days (n : Z) : outcome Z :=
  if Z.abs n <=? 999999999 then Ok (n * seconds_per_day) else Raise OverflowError.

(** [t + delta] on a [datetime]. *)
Definition datetime_add (t delta : Z) : outcome Z :=
  let r := t + delta in
  if (datetime_min <=? r) && (r <=? datetime_max) then Ok r else Raise OverflowError.

(** [.dt.date]: the calendar day of an instant. *)
Definition date_of (t : Z) : Z := t / seconds_per_day.

(** [expected_timeframe.endswith('d')] and [expected_timeframe[:-1]]. *)
Definition endswith_d (tf : string) : bool :=
  match rev (list_ascii_of_string tf) with
  | c :: _ => Ascii.eqb c "d"%char
  | [] => false
  end.

Definition drop_last (tf : string) : string :=
  string_of_list_ascii (removelast (list_ascii_of_string tf)).

(** Lines 127-130: the number of days of the holding horizon. *)
Definition parse_timeframe (expected_timeframe : string) : outcome Z :=
  if endswith_d expected_timeframe then
    match py_int (drop_last expected_timeframe) with
    | Some days => Ok days
    | None => Raise (InvalidLiteralForInt (drop_last expected_timeframe))
    end
  else Raise (UnsupportedTimeframe expected_timeframe).

(** Lines 132-134: [max_exit_time = entry_time + timedelta(days=days)]. *)
Definition max_exit_time_of (entry_time : Z) (expected_timeframe : string) : outcome Z :=
  do days <- parse_timeframe expected_timeframe;
  do delta <- timedelta_days days;
  datetime_add entry_time delta.

(** ** Market data *)

(** One row of a frame; [T] is the type of the cells of its [Datetime]
    column. *)
Record Bar (T : Type) : Type := mkBar {
  Datetime : T;
  Open : float;
  High : float;
  Low : float;
  Close : float;
  Volume : float
}.
Arguments mkBar {T} _ _ _ _ _ _.
Arguments Datetime {T} _.
Arguments Open {T} _.
Arguments High {T} _.
Arguments Low {T} _.
Arguments Close {T} _.
Arguments Volume {T} _.

(** A cell of the [Datetime] column as a frame is received: a timestamp
    (the column has a datetime dtype when all its cells are), or text that
    [pd.to_datetime] has still to read. *)
Inductive cell : Type :=
| Timestamp (t : Z)
| Text (s : string).

Definition DataFrame : Type := list (Bar cell).

Definition with_datetime {T U : Type} (b : Bar T) (u : U) : Bar U :=
  mkBar u (Open b) (High b) (Low b) (Close b) (Volume b).

Definition is_timestamp (c : cell) : bool :=
  match c with Timestamp _ => true | Text _ => false end.

(** [pd.api.types.is_datetime64_any_dtype(market_data['Datetime'])]. *)
Definition is_datetime64_any_dtype (df : DataFrame) : bool :=
  forallb (fun b => is_timestamp (Datetime b)) df.

(** The OHLCV values of a row, whatever its [Datetime] cell. *)
Definition ohlcv {T : Type} (b : Bar T) : Bar unit := with_datetime b tt.

Section WithExternals.
Context `{Externals}.

(** The instant a cell denotes. *)
Definition instant (c : cell) : option Z :=
  match c with
  | Timestamp t => Some t
  | Text s => to_datetime s
  end.

(** [pd.to_datetime(market_data['Datetime'])]: every cell read, or a
    failure when one cannot be. *)
Fixpoint pd_to_datetime (df : DataFrame) : option (list (Bar Z)) :=
  match df with
  | [] => Some []
  | b :: r =>
      match instant (Datetime b), pd_to_datetime r with
      | Some t, Some r' => Some (with_datetime b t :: r')
      | _, _ => None
      end
  end.

End WithExternals.

(** The frame whose [Datetime] column holds the timestamps [bars] have. *)
Definition frame_of (bars : list (Bar Z)) : DataFrame :=
  List.map (fun b => with_datetime b (Timestamp (Datetime b))) bars.

(** ** Trades *)

Inductive Direction : Type := LONG | SHORT.

(** The text of [exit_reason], with the values formatted into it. *)
Inductive ExitReason : Type :=
| ProfitTargetReached (percent : float) (* f"Profit target of {expected_profit_percentage*100}% reached" *)
| TimeBasedExit (expected_timeframe : string). (* f"Time-based exit after {expected_timeframe}" *)

Record TradePosition : Type := mkTradePosition {
  pos_entry_time : Z;
  pos_entry_price : float;
  pos_position_size : float;
  pos_direction : Direction;
  pos_ticker : string;
  pos_agent_name : string;
  pos_reasoning : string
}.

Record TradeResult : Type := mkTradeResult {
  entry_time : Z;
  exit_time : Z;
  entry_price : float;
  exit_price : float;
  position_size : float;
  direction : Direction;
  ticker : string;
  fees : float;
  pnl : float;
  pnl_pct : float;
  agent_name : string;
  reasoning : string;
  exit_reason : ExitReason
}.

(** ** [BacktestFramework.execute_trade] *)

(** A value of an agent response that the code passes to [float]. *)
Inductive pyval : Type :=
| Num (x : float)
| Str (s : string).

(** The dictionary of one agent response, by its keys. *)
Record Response : Type := mkResponse {
  r_ticker : option string;
  r_action : option string;
  r_amount : option pyval;
  r_expected_timeframe : option string;
  r_expected_profit_percentage : option pyval;
  r_persona : option string;
  r_reasoning : option string
}.

Record Metrics : Type := mkMetrics {
  total_trades : nat;
  win_rate : float;
  avg_return : float;
  max_loss : float;
  max_gain : float
}.

(** What [self.logger] is told. *)
Inductive LogRecord : Type :=
| InfoStartingBacktest
| InfoProcessingTrade (response : Response)
| ErrorMissingFields (response : Response)
| ErrorNoMarketData (ticker : string)
| ErrorEmptyMarketData (ticker : string)
| InfoTradeResult (result : TradeResult)
| ErrorExecutingTrade (e : Error)
| InfoBacktestMetrics (metrics : Metrics).

Definition is_error_record (l : LogRecord) : bool :=
  match l with
  | ErrorMissingFields _ | ErrorNoMarketData _ | ErrorEmptyMarketData _
  | ErrorExecutingTrade _ => true
  | _ => false
  end.

Record BacktestFramework : Type := mkBacktestFramework {
  fee_pct : float;
  reference_date : option Z;
  trades : list TradeResult;
  current_positions : gmap string TradePosition;
  logger : list LogRecord
}.

(** Lines 136-138: the [Datetime] column is replaced by its timestamps when
    its dtype is not a datetime one. *)
Definition convert_datetime `{Externals} (market_data : DataFrame) : outcome DataFrame :=
  if negb (is_datetime64_any_dtype market_data) then
    match pd_to_datetime market_data with
    | Some bars => Ok (frame_of bars)
    | None => Raise DatetimeParseError
    end
  else Ok market_data.

(** The rows of a frame whose [Datetime] column has a datetime dtype. *)
Definition bars_of (market_data : DataFrame) : list (Bar Z) :=
  omap (fun b => match Datetime b with
                 | Timestamp t => Some (with_datetime b t)
                 | Text _ => None
                 end) market_data.

(** [market_data['Datetime'] >= t]. *)
Definition at_or_after (t : Z) (b : Bar Z) : bool := t <=? Datetime b.

(** Lines 155-158: the rows of the holding window. *)
Definition in_window (actual_entry_time max_exit_time : Z) (b : Bar Z) : bool :=
  (actual_entry_time <=? Datetime b) && (Datetime b <=? max_exit_time).

(** Lines 149-152. *)
Definition target_price_of (action : string) (entry_price expected_profit_percentage : float)
  : float :=
  if String.eqb action "BUY" then (entry_price * (1 + expected_profit_percentage))%float
  else (entry_price * (1 - expected_profit_percentage))%float.

(** [trade_data.groupby(trade_data['Datetime'].dt.date)]: one group per
    calendar day, the days in increasing order, the rows of a group in the
    order of the frame. *)
Fixpoint insert_date (d : Z) (ds : list Z) : list Z :=
  match ds with
  | [] => [d]
  | d' :: r =>
      if d <? d' then d :: ds
      else if d =? d' then ds
      else d' :: insert_date d r
  end.

Definition group_dates (rows : list (Bar Z)) : list Z :=
  fold_right insert_date [] (List.map (fun b => date_of (Datetime b)) rows).

Definition on_date (d : Z) (b : Bar Z) : bool := date_of (Datetime b) =? d.

Definition groupby_date (rows : list (Bar Z)) : list (Z * list (Bar Z)) :=
  List.map (fun d => (d, List.filter (on_date d) rows)) (group_dates rows).

(** Lines 166 and 174: the test on the extreme of a day. *)
Definition day_reaches (action : string) (target_price : float) (daily_data : list (Bar Z))
  : bool :=
  if String.eqb action "BUY"
  then F64.geb (F64.series_max (List.map High daily_data)) target_price
  else PrimFloat.leb (F64.series_min (List.map Low daily_data)) target_price.

(** Lines 170 and 178: the rows of a day that reach the target. *)
Definition reaches (action : string) (target_price : float) (b : Bar Z) : bool :=
  if String.eqb action "BUY" then F64.geb (High b) target_price
  else PrimFloat.leb (Low b) target_price.

(** Lines 164-180: the loop over the days; [Some] when it leaves by
    [break], with [exit_price] and [actual_exit_time]. *)
Fixpoint scan_days (action : string) (target_price : float)
  (groups : list (Z * list (Bar Z))) : outcome (option (float * Z)) :=
  match groups with
  | [] => Ok None
  | (_, daily_data) :: rest =>
      if day_reaches action target_price daily_data then
        match List.filter (reaches action target_price) daily_data with
        | b :: _ => Ok (Some (target_price, Datetime b))
        | [] => Raise IndexError
        end
      else scan_days action target_price rest
  end.

(** Lines 183-188: the exit at the time limit. *)
Definition time_limit_exit (max_exit_time : Z) (bars : list (Bar Z)) : outcome (float * Z) :=
  match List.filter (at_or_after max_exit_time) bars with
  | b :: _ => Ok (Close b, Datetime b)
  | [] => Raise (NoExitData max_exit_time)
  end.

(** Lines 140-239 on the rows of the frame: the position and the result. *)
Definition simulate (fee : float) (reference_time max_exit_time : Z)
  (tick action : string) (bars : list (Bar Z)) (size : float)
  (agent reason expected_timeframe : string) (expected_profit_percentage : float)
  : outcome (TradePosition * TradeResult) :=
  match List.filter (at_or_after reference_time) bars with
  | [] => Raise (NoEntryData reference_time)
  | entry_bar :: _ =>
      let entry_px := Close entry_bar in
      let actual_entry_time := Datetime entry_bar in
      let target_price := target_price_of action entry_px expected_profit_percentage in
      let trade_data := List.filter (in_window actual_entry_time max_exit_time) bars in
      do found <- scan_days action target_price (groupby_date trade_data);
      do exit <- match found with
                 | Some e => Ok e
                 | None => time_limit_exit max_exit_time bars
                 end;
      let exit_px := fst exit in
      let actual_exit_time := snd exit in
      let entry_value := (entry_px * size)%float in
      let exit_value := (exit_px * size)%float in
      let entry_fee := (entry_value * fee)%float in
      let exit_fee := (exit_value * fee)%float in
      let pnl_v :=
        if String.eqb action "BUY"
        then ((exit_value - entry_value) - (entry_fee + exit_fee))%float
        else ((entry_value - exit_value) - (entry_fee + exit_fee))%float in
      let pnl_pct_v :=
        if String.eqb action "BUY"
        then (((exit_px - entry_px) / entry_px) * 100)%float
        else (((entry_px - exit_px) / entry_px) * 100)%float in
      let dir := if String.eqb action "BUY" then LONG else SHORT in
      let position :=
        {| pos_entry_time := actual_entry_time;
           pos_entry_price := entry_px;
           pos_position_size := size;
           pos_direction := dir;
           pos_ticker := tick;
           pos_agent_name := agent;
           pos_reasoning := reason |} in
      let reason_of_exit :=
        if PrimFloat.eqb exit_px target_price
        then ProfitTargetReached (expected_profit_percentage * 100)%float
        else TimeBasedExit expected_timeframe in
      Ok (position,
          {| entry_time := actual_entry_time;
             exit_time := actual_exit_time;
             entry_price := entry_px;
             exit_price := exit_px;
             position_size := size;
             direction := dir;
             ticker := tick;
             fees := (entry_fee + exit_fee)%float;
             pnl := pnl_v;
             pnl_pct := pnl_pct_v;
             agent_name := agent;
             reasoning := reason;
             exit_reason := reason_of_exit |})
  end.

(** Lines 216 and 241: the position and the result are recorded. *)
Definition record_trade (self : BacktestFramework) (position : TradePosition)
  (result : TradeResult) : BacktestFramework :=
  {| fee_pct := fee_pct self;
     reference_date := reference_date self;
     trades := trades self ++ [result];
     current_positions := <[pos_ticker position := position]> (current_positions self);
     logger := logger self |}.

(** [execute_trade]: the framework and the frame after the call, and what
    the call returns or raises. *)
Definition execute_trade `{Externals} (self : BacktestFramework) (tick action : string)
  (market_data : DataFrame) (size : float) (agent reason expected_timeframe : string)
  (expected_profit_percentage : float)
  : BacktestFramework * DataFrame * outcome TradeResult :=
  match reference_date self with
  | None => (self, market_data, Raise MissingReferenceDate)
  | Some reference_time =>
      match max_exit_time_of reference_time expected_timeframe with
      | Raise e => (self, market_data, Raise e)
      | Ok max_exit_time =>
          match convert_datetime market_data with
          | Raise e => (self, market_data, Raise e)
          | Ok market_data' =>
              match simulate (fee_pct self) reference_time max_exit_time tick action
                      (bars_of market_data') size agent reason expected_timeframe
                      expected_profit_percentage with
              | Raise e => (self, market_data', Raise e)
              | Ok (position, result) =>
                  (record_trade self position result, market_data', Ok result)
              end
          end
      end
  end.

(** ** Metrics (lines 315-341) *)

Section Metrics.
Context `{Externals}.

(** [sum], [min] and [max] of Python on a list of floats. *)
Definition py_sum (l : list float) : float := fold_left PrimFloat.add l 0%float.

Definition py_min (x : float) (r : list float) : float :=
  fold_left (fun m y => if PrimFloat.ltb y m then y else m) r x.

Definition py_max (x : float) (r : list float) : float :=
  fold_left (fun m y => if F64.gtb y m then y else m) r x.

Definition _calculate_win_rate (ts : list TradeResult) : float :=
  match ts with
  | [] => 0%float
  | _ =>
      let winning_trades := length (List.filter (fun t => F64.gtb (pnl t) 0) ts) in
      round2 ((F64.of_nat winning_trades / F64.of_nat (length ts)) * 100)%float
  end.

Definition _calculate_avg_return (ts : list TradeResult) : float :=
  match ts with
  | [] => 0%float
  | _ =>
      let returns := List.map pnl_pct ts in
      round2 (py_sum returns / F64.of_nat (length returns))%float
  end.

Definition _calculate_max_loss (ts : list TradeResult) : float :=
  match List.map pnl_pct ts with
  | [] => 0%float
  | x :: r => round2 (py_min x r)
  end.

Definition _calculate_max_gain (ts : list TradeResult) : float :=
  match List.map pnl_pct ts with
  | [] => 0%float
  | x :: r => round2 (py_max x r)
  end.

End Metrics.

(** ** [BacktestFramework.run_backtest] (lines 244-313) *)

Section RunBacktest.
Context `{Externals}.

Definition log (self : BacktestFramework) (l : LogRecord) : BacktestFramework :=
  {| fee_pct := fee_pct self;
     reference_date := reference_date self;
     trades := trades self;
     current_positions := current_positions self;
     logger := logger self ++ [l] |}.

(** Lines 252-254. *)
Definition reset_state (self : BacktestFramework) : BacktestFramework :=
  {| fee_pct := fee_pct self;
     reference_date := reference_date self;
     trades := [];
     current_positions := ∅;
     logger := logger self |}.

(** [float(v)]. *)
Definition py_float (v : pyval) : outcome float :=
  match v with
  | Num x => Ok x
  | Str s =>
      match float_of_string s with
      | Some x => Ok x
      | None => Raise (InvalidLiteralForFloat s)
      end
  end.

(** [response[key]] for a key that the loop has not checked. *)
Definition subscript {A : Type} (key : string) (v : option A) : outcome A :=
  match v with
  | Some a => Ok a
  | None => Raise (KeyError key)
  end.

(** Lines 285-294: the arguments of the call, evaluated in their order. *)
Definition call_arguments (response : Response) (amount : pyval) : outcome (float * float) :=
  do size <- py_float amount;
  do v <- subscript "expected_profit_percentage" (r_expected_profit_percentage response);
  do pct <- py_float v;
  Ok (size, pct).

(** Lines 266-301: the body of the loop, on the framework and the market
    data dictionary. *)
Definition process_response (st : BacktestFramework * gmap string DataFrame)
  (response : Response) : BacktestFramework * gmap string DataFrame :=
  let self := log (fst st) (InfoProcessingTrade response) in
  let market_data := snd st in
  match r_ticker response, r_action response, r_amount response,
        r_expected_timeframe response with
  | Some tick, Some action, Some amount, Some expected_timeframe =>
      match market_data !! tick with
      | None => (log self (ErrorNoMarketData tick), market_data)
      | Some [] => (log self (ErrorEmptyMarketData tick), market_data)
      | Some df =>
          match call_arguments response amount with
          | Raise e => (log self (ErrorExecutingTrade e), market_data)
          | Ok (size, pct) =>
              let '(self', df', res) :=
                execute_trade self tick action df size
                  (default "unknown" (r_persona response))
                  (default "" (r_reasoning response))
                  expected_timeframe pct in
              let market_data' := <[tick := df']> market_data in
              match res with
              | Ok result => (log self' (InfoTradeResult result), market_data')
              | Raise e => (log self' (ErrorExecutingTrade e), market_data')
              end
          end
      end
  | _, _, _, _ => (log self (ErrorMissingFields response), market_data)
  end.

Definition run_backtest (self : BacktestFramework) (market_data : gmap string DataFrame)
  (agent_responses : list Response)
  : BacktestFramework * gmap string DataFrame * (Metrics * list TradeResult) :=
  let self := log self InfoStartingBacktest in
  let self := reset_state self in
  let metrics :=
    {| total_trades := length agent_responses;
       win_rate := 0; avg_return := 0; max_loss := 0; max_gain := 0 |} in
  let st := fold_left process_response agent_responses (self, market_data) in
  let self := fst st in
  let metrics :=
    match trades self with
    | [] => metrics
    | _ =>
        {| total_trades := total_trades metrics;
           win_rate := _calculate_win_rate (trades self);
           avg_return := _calculate_avg_return (trades self);
           max_loss := _calculate_max_loss (trades self);
           max_gain := _calculate_max_gain (trades self) |}
    end in
  let self := log self (InfoBacktestMetrics metrics) in
  (self, snd st, (metrics, trades self)).

End RunBacktest.

(** ** Notions used to state and prove the properties *)

(** The series is in chronological order. *)
Fixpoint chronological (ts : list Z) : bool :=
  match ts with
  | [] => true
  | t :: r =>
      match r with
      | [] => true
      | t' :: _ => (t <=? t') && chronological r
      end
  end.

(** The rank of a binary64 number in the order of [SFcompare]. *)
Definition sf_nan (s : spec_float) : bool :=
  match s with S754_nan => true | _ => false end.

(** A rank that orders the floats that are not NaN as [SFcompare] does:
    sign class first, then exponent and mantissa. *)
Definition sf_class (s : spec_float) : Z :=
  match s with
  | S754_infinity true => -2
  | S754_finite true _ _ => -1
  | S754_zero _ => 0
  | S754_finite false _ _ => 1
  | S754_infinity false => 2
  | S754_nan => 3
  end.

Definition sf_key (s : spec_float) : Z * Z :=
  match s with
  | S754_finite false m e => (e, Zpos m)
  | S754_finite true m e => (- e, - Zpos m)
  | _ => (0, 0)
  end.

Definition key_lt (a b : spec_float) : Prop :=
  sf_class a < sf_class b \/
  (sf_class a = sf_class b /\
   (fst (sf_key a) < fst (sf_key b) \/
    (fst (sf_key a) = fst (sf_key b) /\ snd (sf_key a) < snd (sf_key b)))).

Definition key_eq (a b : spec_float) : Prop :=
  sf_class a = sf_class b /\ sf_key a = sf_key b.

(** The result of [simulate], from the entry bar and the exit. *)
Definition result_of (fee : float) (tick action : string) (size : float)
  (agent reason tf : string) (pct : float) (entry_bar : Bar Z) (exit : float * Z)
  : TradeResult :=
  let e := Close entry_bar in
  let x := fst exit in
  {| entry_time := Datetime entry_bar;
     exit_time := snd exit;
     entry_price := e;
     exit_price := x;
     position_size := size;
     direction := if String.eqb action "BUY" then LONG else SHORT;
     ticker := tick;
     fees := (e * size * fee + x * size * fee)%float;
     pnl := if String.eqb action "BUY"
            then ((x * size - e * size) - (e * size * fee + x * size * fee))%float
            else ((e * size - x * size) - (e * size * fee + x * size * fee))%float;
     pnl_pct := if String.eqb action "BUY"
                then (((x - e) / e) * 100)%float
                else (((e - x) / e) * 100)%float;
     agent_name := agent;
     reasoning := reason;
     exit_reason := if PrimFloat.eqb x (target_price_of action e pct)
                    then ProfitTargetReached (pct * 100)%float
                    else TimeBasedExit tf |}.

(** What one decision yields on its own, against the market data and the
    framework a run starts from: the trade it produces, or nothing when it
    is skipped (missing fields, unknown ticker, empty frame, or an
    exception out of the call). *)
Definition decision_result `{Externals} (self : BacktestFramework)
  (market_data : gmap string DataFrame) (response : Response) : option TradeResult :=
  match r_ticker response, r_action response, r_amount response,
        r_expected_timeframe response with
  | Some tick, Some action, Some amount, Some expected_timeframe =>
      match market_data !! tick with
      | None => None
      | Some [] => None
      | Some df =>
          match call_arguments response amount with
          | Raise _ => None
          | Ok (size, pct) =>
              outcome_to_option
                (snd (execute_trade self tick action df size
                        (default "unknown" (r_persona response))
                        (default "" (r_reasoning response))
                        expected_timeframe pct))
          end
      end
  | _, _, _, _ => None
  end.

(** The number of failures on record. *)
Definition count_errors (l : list LogRecord) : nat :=
  length (List.filter is_error_record l).

(** Two frames that [execute_trade] cannot tell apart: they convert alike
    and are empty together. *)
Definition frame_agrees `{Externals} (df df0 : DataFrame) : Prop :=
  convert_datetime df = convert_datetime df0 /\ (df = [] <-> df0 = []).

Definition frames_agree `{Externals} (m m0 : gmap string DataFrame) : Prop :=
  forall t : string,
    match m !! t, m0 !! t with
    | Some df, Some df0 => frame_agrees df df0
    | None, None => True
    | _, _ => False
    end.

(** The state of the loop against the state the run started from. *)
Definition state_agrees `{Externals} (st st0 : BacktestFramework * gmap string DataFrame) : Prop :=
  fee_pct (fst st) = fee_pct (fst st0) /\
  reference_date (fst st) = reference_date (fst st0) /\
  frames_agree (snd st) (snd st0).

(** ** A concrete scenario *)

(** Text cells that hold a number of seconds; no string is a float;
    rounding left out. *)
Definition seconds_reader : Externals :=
  {| to_datetime := py_int;
     float_of_string := fun _ => None;
     round2 := fun x => x |}.

Definition framework (fee : float) (reference : option Z) : BacktestFramework :=
  {| fee_pct := fee; reference_date := reference; trades := [];
     current_positions := ∅; logger := [] |}.

(** An hourly bar, given by its time in seconds and its high, low and
    close. *)
Definition bar_at (t : Z) (high low close : float) : Bar cell :=
  mkBar (Timestamp t) close high low close 0%float.

(** The same bar as a row read from a frame. *)
Definition row_at (t : Z) (high low close : float) : Bar Z :=
  mkBar t close high low close 0%float.

(** The example of the specification: closes and highs 100, 101, 99, 98 at
    four successive hours. *)
Definition example_frame : DataFrame :=
  [ bar_at 0 100 100 100; bar_at 3600 101 101 101;
    bar_at 7200 99 99 99; bar_at 10800 98 98 98 ].

(** Two bars a day apart, flat at the closes [c0] and [c1]. *)
Definition two_bars (c0 c1 : float) : DataFrame :=
  [ bar_at 0 c0 c0 c0; bar_at 86400 c1 c1 c1 ].

(** Two trading days: the second opens after the horizon of one day has
    run out, and closes its first hour at 101. *)
Definition gap_frame : DataFrame :=
  [ bar_at 0 100 100 100; bar_at 3600 100.8 100 100.5;
    bar_at 120600 101.5 100.9 101 ].

(** A bar whose high is above its close by more than one percent. *)
Definition spike_frame : DataFrame :=
  [ bar_at 0 102 99 100; bar_at 3600 100 99 99.5 ].

(** A decision on [TICK]: buy 10 for one day, one percent of profit. *)
Definition example_response : Response :=
  {| r_ticker := Some "TICK";
     r_action := Some "BUY";
     r_amount := Some (Num 10);
     r_expected_timeframe := Some "1d";
     r_expected_profit_percentage := Some (Num 0.01);
     r_persona := None;
     r_reasoning := None |}.

(** A decision that names no ticker. *)
Definition incomplete_response : Response :=
  {| r_ticker := None;
     r_action := Some "BUY";
     r_amount := Some (Num 10);
     r_expected_timeframe := Some "1d";
     r_expected_profit_percentage := Some (Num 0.01);
     r_persona := None;
     r_reasoning := None |}.

(** A frame whose [Datetime] column is still text. *)
Definition text_frame : DataFrame :=
  [ mkBar (Text "0") 100 100 100 100 0; mkBar (Text "3600") 101 101 101 101 0 ]%float.

(** A frame as it is read from a file of quotes: the [Datetime] column
    holds the text of the first two hours of the first of January 1970,
    the instants 0 and 3600. *)
Definition iso_frame : DataFrame :=
  [ mkBar (Text "1970-01-01 00:00:00") 100 100 100 100 0;
    mkBar (Text "1970-01-01 01:00:00") 101 101 101 101 0 ]%float.

(** [pd.to_datetime] on the two texts of [iso_frame], and on no other. *)
Definition iso_reader : Externals :=
  {| to_datetime := fun s =>
       if String.eqb s "1970-01-01 00:00:00" then Some 0
       else if String.eqb s "1970-01-01 01:00:00" then Some 3600
       else None;
     float_of_string := fun _ => None;
     round2 := fun x => x |}.

(** ** Notions for the further properties *)

(** The position that [execute_trade] records with a result (lines
    206-214): the entry side of the trade. *)
Definition position_of (r : TradeResult) : TradePosition :=
  {| pos_entry_time := entry_time r;
     pos_entry_price := entry_price r;
     pos_position_size := position_size r;
     pos_direction := direction r;
     pos_ticker := ticker r;
     pos_agent_name := agent_name r;
     pos_reasoning := reasoning r |}.

(** The values a frame holds, row for row: the OHLCV columns and the
    instants of [Datetime]. *)
Definition frame_values `{Externals} (df : DataFrame)
  : list (Bar unit) * list (option Z) :=
  (List.map ohlcv df, List.map (fun b => instant (Datetime b)) df).

(** The metrics of a run, from the number of decisions and the trades
    produced (lines 257-263 and 304-310). *)
Definition metrics_of `{Externals} (decisions : nat) (ts : list TradeResult) : Metrics :=
  match ts with
  | [] =>
      {| total_trades := decisions;
         win_rate := 0; avg_return := 0; max_loss := 0; max_gain := 0 |}
  | _ =>
      {| total_trades := decisions;
         win_rate := _calculate_win_rate ts;
         avg_return := _calculate_avg_return ts;
         max_loss := _calculate_max_loss ts;
         max_gain := _calculate_max_gain ts |}
  end.

(** The positions that a sequence of recorded trades leaves: each trade
    overwrites the position of its ticker. *)
Definition positions_of (ts : list TradeResult) : gmap string TradePosition :=
  fold_left (fun m r => <[ticker r := position_of r]> m) ts ∅.

(** The trades of one ticker. *)
Definition trades_on (t : string) (ts : list TradeResult) : list TradeResult :=
  List.filter (fun r => String.eqb (ticker r) t) ts.

(** Two trades of the example series: the LONG one that leaves at 101 and
    a SHORT one that is closed at 101 with a loss. *)
Definition example_trades : list TradeResult :=
  [ result_of 0.001 "TICK" "BUY" 10 "agent" "why" "1d" 0.01
      (row_at 0 100 100 100) (101%float, 3600);
    result_of 0.001 "TICK" "SHORT" 10 "agent" "why" "1d" 0.2
      (row_at 0 100 100 100) (101%float, 3600) ].

(** ** [LLMResponseValidator.validate_trading_decision]
    ([src/src/validators/llm_response_validator.py], lines 68-125) *)

(** What the [try] block of lines 107-117 catches and wraps. *)
Inductive NumericCause : Type :=
| CouldNotConvert (s : string)  (* float() raised *)
| AmountNotPositive             (* "Amount must be positive" *)
| ProfitOutOfRange.             (* "Expected profit must be between 0-100%" *)

Inductive ValidationError : Type :=
| MissingRequiredFields (missing : list string)
| InvalidAction (action : string)
| InvalidTicker (tick : string)
| InvalidNumericValue (cause : NumericCause)
| InvalidTimeframeFormat.

Inductive verdict (A : Type) : Type :=
| Accepted (a : A)
| Rejected (e : ValidationError).
Arguments Accepted {A} a.
Arguments Rejected {A} e.

Definition valid_actions : list string := ["BUY"; "SELL"; "SHORT"; "PUT"]%string.

(** [s in l] on a list of strings. *)
Definition str_in (s : string) (l : list string) : bool := existsb (String.eqb s) l.

(** [s.endswith((c1, c2, ...))] for suffixes of one character. *)
Definition endswith_one_of (suffixes : list ascii) (s : string) : bool :=
  match rev (list_ascii_of_string s) with
  | c :: _ => existsb (Ascii.eqb c) suffixes
  | [] => false
  end.

Definition absent {A : Type} (key : string) (v : option A) : list string :=
  match v with Some _ => [] | None => [key] end.

(** Lines 89-93: the required fields that the response lacks, in the order
    of the list of required fields. *)
Definition missing_fields (response : Response) : list string :=
  absent "action" (r_action response) ++
  absent "ticker" (r_ticker response) ++
  absent "amount" (r_amount response) ++
  absent "expected_timeframe" (r_expected_timeframe response) ++
  absent "expected_profit_percentage" (r_expected_profit_percentage response).

Section Validator.
Context `{Externals}.

(** Lines 107-117: the checks on the two numbers; every [ValueError]
    raised inside the [try] is caught and wrapped. *)
Definition numeric_checks (amount profit : pyval) : option NumericCause :=
  match py_float amount with
  | Raise _ => Some (CouldNotConvert match amount with Str s => s | Num _ => "" end)
  | Ok a =>
      if PrimFloat.leb a 0 then Some AmountNotPositive
      else
        match py_float profit with
        | Raise _ => Some (CouldNotConvert match profit with Str s => s | Num _ => "" end)
        | Ok p =>
            if negb (PrimFloat.leb 0 p && PrimFloat.leb p 100) then Some ProfitOutOfRange
            else None
        end
  end.

Definition validate_trading_decision (response : Response) (available_tickers : list string)
  : verdict Response :=
  match r_action response, r_ticker response, r_amount response,
        r_expected_timeframe response, r_expected_profit_percentage response with
  | Some action, Some tick, Some amount, Some expected_timeframe, Some profit =>
      if negb (str_in action valid_actions) then Rejected (InvalidAction action)
      else if negb (str_in tick available_tickers) then Rejected (InvalidTicker tick)
      else
        match numeric_checks amount profit with
        | Some cause => Rejected (InvalidNumericValue cause)
        | None =>
            if negb (endswith_one_of ["d"; "w"; "m"]%char expected_timeframe)
            then Rejected InvalidTimeframeFormat
            else Accepted response
        end
  | _, _, _, _, _ => Rejected (MissingRequiredFields (missing_fields response))
  end.

End Validator.

(** A decision for two weeks. *)
Definition weekly_response : Response :=
  {| r_ticker := Some "TICK";
     r_action := Some "BUY";
     r_amount := Some (Num 10);
     r_expected_timeframe := Some "2w";
     r_expected_profit_percentage := Some (Num 0.01);
     r_persona := None;
     r_reasoning := None |}.

(** ** [TradingSystemRunner._slice_market_data]
    ([src/src/trading_system_runner.py], lines 52-97)

    The frames have the six columns by their type, and the dates are
    datetimes. Localising the timestamps of a frame that has no time zone
    (line 82) leaves its wall clock, which is what a timestamp is here, as
    it is; it needs a [Datetime] column with a datetime dtype.

    Time zones are left out: the two dates and the timestamps of the
    frames are wall-clock instants of one zone. The [TypeError] of line 85
    when dates without a zone are compared with the localised column, and
    the write of the localised column into the frame given (line 82), are
    not part of the embedding. *)

Inductive SliceError : Type :=
| NoMarketDataProvided        (* ValueError("No market data provided") *)
| EndNotAfterStart            (* ValueError("end_date must be after start_date") *)
| NotDatetimeLike             (* AttributeError of the .dt accessor *)
| NoValidDataAfterFiltering.  (* ValueError("No valid data after filtering") *)

(** Line 85: [(df['Datetime'] >= start_date) & (df['Datetime'] < end_date)]. *)
Definition in_period (start_date end_date : Z) (b : Bar cell) : bool :=
  match Datetime b with
  | Timestamp t => (start_date <=? t) && (t <? end_date)
  | Text _ => false
  end.

(** Lines 71-92 for one frame: the rows of the period, or nothing when the
    frame is empty or has fewer than ten of them. *)
Definition slice_frame (start_date end_date : Z) (df : DataFrame) : option DataFrame :=
  match df with
  | [] => None
  | _ =>
      let filtered_df := List.filter (in_period start_date end_date) df in
      if (length filtered_df <? 10)%nat then None else Some filtered_df
  end.

Definition _slice_market_data (market_data : gmap string DataFrame) (start_date end_date : Z)
  : SliceError + gmap string DataFrame :=
  if (size market_data =? 0)%nat then inl NoMarketDataProvided
  else if end_date <=? start_date then inl EndNotAfterStart
  else if existsb (fun kv => negb (is_datetime64_any_dtype (snd kv)))
            (map_to_list market_data)
       then inl NotDatetimeLike
  else
    let sliced_data := omap (slice_frame start_date end_date) market_data in
    if (size sliced_data =? 0)%nat then inl NoValidDataAfterFiltering
    else inr sliced_data.

(** Ten hourly bars at 100, from the reference time 0 on. *)
Definition ten_bars : DataFrame :=
  List.map (fun i => bar_at (3600 * Z.of_nat i) 100 100 100) (seq 0 10).

(** ** [BacktestFramework._format_trade] and [generate_report]
    ([src/src/enhanced_algo_test.py], lines 343-385)

    The report is the dictionary that [generate_report] builds, before
    [json.dumps] turns it into text and, when a directory is given, a file
    is written. The formatting of a time and the rounding to four decimals
    are taken as given. *)

Class ReportFormat : Type := {
  (** [t.strftime('%Y-%m-%d %H:%M:%S')]. *)
  strftime : Z -> string;
  (** [round(x, 4)]. *)
  round4 : float -> float
}.

Record FormattedTrade : Type := mkFormattedTrade {
  ft_ticker : string;
  ft_direction : Direction;
  ft_entry_time : string;
  ft_exit_time : string;
  ft_entry_price : float;
  ft_exit_price : float;
  ft_position_size : float;
  ft_pnl : float;
  ft_pnl_pct : float;
  ft_fees : float;
  ft_agent : string;
  ft_reasoning : string;
  ft_exit_reason : ExitReason
}.

Record BacktestSummary : Type := mkBacktestSummary {
  bs_total_trades : nat;
  bs_unique_tickers : nat;
  bs_unique_agents : nat
}.

Record PerformanceMetrics : Type := mkPerformanceMetrics {
  pm_win_rate : float;
  pm_avg_return : float;
  pm_max_loss : float;
  pm_max_gain : float
}.

Record Report : Type := mkReport {
  backtest_summary : BacktestSummary;
  performance_metrics : PerformanceMetrics;
  trade_log : list FormattedTrade
}.

Section Reporting.
Context `{Externals} `{ReportFormat}.

Definition _format_trade (trade : TradeResult) : FormattedTrade :=
  {| ft_ticker := ticker trade;
     ft_direction := direction trade;
     ft_entry_time := strftime (entry_time trade);
     ft_exit_time := strftime (exit_time trade);
     ft_entry_price := round4 (entry_price trade);
     ft_exit_price := round4 (exit_price trade);
     ft_position_size := position_size trade;
     ft_pnl := round2 (pnl trade);
     ft_pnl_pct := round2 (pnl_pct trade);
     ft_fees := round2 (fees trade);
     ft_agent := agent_name trade;
     ft_reasoning := reasoning trade;
     ft_exit_reason := exit_reason trade |}.

(** [len(set(...))] on strings. *)
Definition count_distinct (l : list string) : nat :=
  size (list_to_set l : gset string).

Definition generate_report (self : BacktestFramework) : Report :=
  {| backtest_summary :=
       {| bs_total_trades := length (trades self);
          bs_unique_tickers := count_distinct (List.map ticker (trades self));
          bs_unique_agents := count_distinct (List.map agent_name (trades self)) |};
     performance_metrics :=
       {| pm_win_rate := _calculate_win_rate (trades self);
          pm_avg_return := _calculate_avg_return (trades self);
          pm_max_loss := _calculate_max_loss (trades self);
          pm_max_gain := _calculate_max_gain (trades self) |};
     trade_log := List.map _format_trade (trades self) |}.

End Reporting.

(** ** [calculate_metrics] ([src/src/utilities/json_to_html.py], lines 7-31)

    A trade of the log read back from its JSON file, by the keys that the
    function looks at; the profit and loss is a float. *)

Record LoggedTrade : Type := mkLoggedTrade {
  lt_direction : option string;
  lt_ticker : option string;
  lt_pnl : option float
}.

Record SummaryMetrics : Type := mkSummaryMetrics {
  sm_total_trades : nat;
  sm_directions : gmap string nat;
  sm_tickers : gmap string nat;
  sm_avg_pnl : float;
  sm_total_pnl : float
}.

(** [counts[key] = counts.get(key, 0) + 1]. *)
Definition count_up (key : string) (counts : gmap string nat) : gmap string nat :=
  <[key := (default 0%nat (counts !! key) + 1)%nat]> counts.

(** Lines 17-29: the body of the loop. *)
Definition add_trade (metrics : SummaryMetrics) (trade : LoggedTrade)
  : outcome SummaryMetrics :=
  do direction <- subscript "direction" (lt_direction trade);
  do tick <- subscript "ticker" (lt_ticker trade);
  match lt_pnl trade with
  | Some p =>
      let total := (sm_total_pnl metrics + p)%float in
      Ok {| sm_total_trades := sm_total_trades metrics;
            sm_directions := count_up direction (sm_directions metrics);
            sm_tickers := count_up tick (sm_tickers metrics);
            sm_avg_pnl := (total / F64.of_nat (sm_total_trades metrics))%float;
            sm_total_pnl := total |}
  | None =>
      Ok {| sm_total_trades := sm_total_trades metrics;
            sm_directions := count_up direction (sm_directions metrics);
            sm_tickers := count_up tick (sm_tickers metrics);
            sm_avg_pnl := sm_avg_pnl metrics;
            sm_total_pnl := sm_total_pnl metrics |}
  end.

Fixpoint add_trades (metrics : SummaryMetrics) (logged : list LoggedTrade)
  : outcome SummaryMetrics :=
  match logged with
  | [] => Ok metrics
  | trade :: rest => do metrics' <- add_trade metrics trade; add_trades metrics' rest
  end.

Definition calculate_metrics (logged : list LoggedTrade) : outcome SummaryMetrics :=
  add_trades
    {| sm_total_trades := length logged;
       sm_directions := ∅;
       sm_tickers := ∅;
       sm_avg_pnl := 0;
       sm_total_pnl := 0 |}
    logged.

(** How often a key occurs among values that may be missing, and the entry
    a counting dictionary has for it. *)
Definition occurrences (key : string) (l : list (option string)) : nat :=
  length (List.filter (fun v => match v with
                                | Some k => String.eqb k key
                                | None => false
                                end) l).

Definition tally (n : nat) : option nat :=
  match n with O => None | S _ => Some n end.

(** A trade of the log has the two keys the function cannot do without. *)
Definition has_keys (trade : LoggedTrade) : Prop :=
  is_Some (lt_direction trade) /\ is_Some (lt_ticker trade).

(** A log of three trades, the last without a profit and loss. *)
Definition example_log : list LoggedTrade :=
  [ {| lt_direction := Some "LONG"; lt_ticker := Some "TICK"; lt_pnl := Some 7.99 |};
    {| lt_direction := Some "SHORT"; lt_ticker := Some "TICK"; lt_pnl := Some (-2.5) |};
    {| lt_direction := Some "LONG"; lt_ticker := Some "TOCK"; lt_pnl := None |} ]%float.

(* ===================================================================== *)
(** * Part II: properties                                                 *)
(* ===================================================================== *)

(** ** Order facts on the specification floats *)

Section SpecFloatOrder.

Lemma SFcompare_nan_l s : SFcompare S754_nan s = None.
Proof. reflexivity. Qed.

Lemma SFcompare_nan_r s : SFcompare s S754_nan = None.
Proof. destruct s; reflexivity. Qed.

Lemma SFcompare_refl s : sf_nan s = false -> SFcompare s s = Some Eq.
Proof.
  destruct s as [b|b| |b m e]; simpl; intros H; try discriminate.
  - reflexivity.
  - destruct b; reflexivity.
  - destruct b; rewrite Z.compare_refl;
      change (Pos.compare_cont Eq m m) with (Pos.compare m m);
      rewrite Pos.compare_refl; reflexivity.
Qed.

Lemma SFcompare_some_not_nan a b c :
  SFcompare a b = Some c -> sf_nan a = false /\ sf_nan b = false.
Proof. destruct a, b; simpl; intros H; try discriminate; auto. Qed.

Lemma SFcompare_key a b :
  sf_nan a = false -> sf_nan b = false ->
  match SFcompare a b with
  | Some Lt => key_lt a b
  | Some Eq => key_eq a b
  | Some Gt => key_lt b a
  | None => False
  end.
Proof.
  unfold key_lt, key_eq.
  destruct a as [sa|sa| |sa ma ea], b as [sb|sb| |sb mb eb];
    simpl; intros Ha Hb; try discriminate;
    try (destruct sa); try (destruct sb); simpl; try lia; try (split; reflexivity).
  all: change (Pos.compare_cont Eq ma mb) with (Pos.compare ma mb).
  all: destruct (Z.compare_spec ea eb) as [He|He|He];
    destruct (Pos.compare_spec ma mb) as [Hm|Hm|Hm]; simpl; subst;
    try lia; try (split; reflexivity).
Qed.

Lemma key_lt_trans a b c : key_lt a b -> key_lt b c -> key_lt a c.
Proof. unfold key_lt. lia. Qed.

Lemma key_lt_eq a b c : key_lt a b -> key_eq b c -> key_lt a c.
Proof. unfold key_lt, key_eq. intros H [E1 E2]. rewrite <- E1, <- E2. exact H. Qed.

Lemma key_eq_lt a b c : key_eq a b -> key_lt b c -> key_lt a c.
Proof. unfold key_lt, key_eq. intros [E1 E2] H. rewrite E1, E2. exact H. Qed.

Lemma key_lt_irrefl a : ~ key_lt a a.
Proof. unfold key_lt. lia. Qed.

Lemma key_eq_trans a b c : key_eq a b -> key_eq b c -> key_eq a c.
Proof. unfold key_eq. intros [? ?] [? ?]. split; congruence. Qed.

Lemma key_eq_sym a b : key_eq a b -> key_eq b a.
Proof. unfold key_eq. intros [? ?]. split; congruence. Qed.

(** [SFleb] read on the rank. *)
Lemma SFleb_key a b :
  SFleb a b = true <->
  sf_nan a = false /\ sf_nan b = false /\ (key_lt a b \/ key_eq a b).
Proof.
  unfold SFleb. split.
  - intros H. destruct (SFcompare a b) as [c|] eqn:E; [|discriminate].
    destruct (SFcompare_some_not_nan _ _ _ E) as [Ha Hb].
    pose proof (SFcompare_key a b Ha Hb) as K. rewrite E in K.
    destruct c; try discriminate; auto.
  - intros (Ha & Hb & K).
    pose proof (SFcompare_key a b Ha Hb) as K'.
    destruct (SFcompare a b) as [[]|]; auto; try contradiction.
    exfalso. destruct K as [K|K].
    + exact (key_lt_irrefl _ (key_lt_trans _ _ _ K K')).
    + exact (key_lt_irrefl _ (key_lt_eq _ _ _ K' K)).
Qed.

Lemma SFltb_key a b :
  SFltb a b = true <-> sf_nan a = false /\ sf_nan b = false /\ key_lt a b.
Proof.
  unfold SFltb. split.
  - intros H. destruct (SFcompare a b) as [c|] eqn:E; [|discriminate].
    destruct (SFcompare_some_not_nan _ _ _ E) as [Ha Hb].
    pose proof (SFcompare_key a b Ha Hb) as K. rewrite E in K.
    destruct c; try discriminate; auto.
  - intros (Ha & Hb & K).
    pose proof (SFcompare_key a b Ha Hb) as K'.
    destruct (SFcompare a b) as [[]|]; auto; try contradiction; exfalso.
    + exact (key_lt_irrefl _ (key_lt_eq _ _ _ K (key_eq_sym _ _ K'))).
    + exact (key_lt_irrefl _ (key_lt_trans _ _ _ K K')).
Qed.

Lemma key_total a b : key_lt a b \/ key_eq a b \/ key_lt b a.
Proof.
  unfold key_lt, key_eq.
  destruct (sf_key a) as [a1 a2] eqn:Ea, (sf_key b) as [b1 b2] eqn:Eb; simpl.
  destruct (Z.lt_total (sf_class a) (sf_class b)) as [H|[H|H]]; [lia| |lia].
  destruct (Z.lt_total a1 b1) as [H1|[H1|H1]]; [lia| |lia].
  destruct (Z.lt_total a2 b2) as [H2|[H2|H2]]; [lia| |lia].
  right; left. split; [exact H|]. congruence.
Qed.

End SpecFloatOrder.

(** ** Order facts on binary64 numbers *)

Section FloatOrder.

Lemma is_nan_spec x : F64.is_nan x = sf_nan (Prim2SF x).
Proof.
  unfold F64.is_nan. rewrite FloatAxioms.eqb_spec. unfold SFeqb.
  destruct (sf_nan (Prim2SF x)) eqn:E.
  - destruct (Prim2SF x); try discriminate. reflexivity.
  - rewrite SFcompare_refl by exact E. reflexivity.
Qed.

Lemma leb_key x y :
  PrimFloat.leb x y = true <->
  F64.is_nan x = false /\ F64.is_nan y = false /\
  (key_lt (Prim2SF x) (Prim2SF y) \/ key_eq (Prim2SF x) (Prim2SF y)).
Proof. rewrite FloatAxioms.leb_spec, !is_nan_spec. apply SFleb_key. Qed.

Lemma ltb_key x y :
  PrimFloat.ltb x y = true <->
  F64.is_nan x = false /\ F64.is_nan y = false /\ key_lt (Prim2SF x) (Prim2SF y).
Proof. rewrite FloatAxioms.ltb_spec, !is_nan_spec. apply SFltb_key. Qed.

Lemma leb_nan_r t x : F64.is_nan x = true -> PrimFloat.leb t x = false.
Proof.
  intros N. destruct (PrimFloat.leb t x) eqn:E; [|reflexivity].
  apply leb_key in E. destruct E as (_ & E & _). congruence.
Qed.

Lemma leb_nan_l t x : F64.is_nan x = true -> PrimFloat.leb x t = false.
Proof.
  intros N. destruct (PrimFloat.leb x t) eqn:E; [|reflexivity].
  apply leb_key in E. destruct E as (E & _). congruence.
Qed.

Lemma leb_not_nan x y :
  PrimFloat.leb x y = true -> F64.is_nan x = false /\ F64.is_nan y = false.
Proof. intros E. apply leb_key in E. tauto. Qed.

Lemma leb_trans x y z :
  PrimFloat.leb x y = true -> PrimFloat.leb y z = true -> PrimFloat.leb x z = true.
Proof.
  rewrite !leb_key. intros (Nx & Ny & H1) (_ & Nz & H2).
  repeat split; try assumption.
  destruct H1 as [H1|H1], H2 as [H2|H2].
  - left. eapply key_lt_trans; eassumption.
  - left. eapply key_lt_eq; eassumption.
  - left. eapply key_eq_lt; eassumption.
  - right. eapply key_eq_trans; eassumption.
Qed.

Lemma ltb_leb x y : PrimFloat.ltb x y = true -> PrimFloat.leb x y = true.
Proof. rewrite ltb_key, leb_key. tauto. Qed.

Lemma not_ltb_leb x y :
  F64.is_nan x = false -> F64.is_nan y = false ->
  PrimFloat.ltb x y = false -> PrimFloat.leb y x = true.
Proof.
  intros Nx Ny L. apply leb_key. repeat split; try assumption.
  destruct (key_total (Prim2SF x) (Prim2SF y)) as [K|[K|K]].
  - assert (PrimFloat.ltb x y = true) by (apply ltb_key; tauto). congruence.
  - right. apply key_eq_sym. exact K.
  - left. exact K.
Qed.

Lemma eqb_refl_of_leb t h : PrimFloat.leb t h = true -> PrimFloat.eqb t t = true.
Proof.
  intros E. apply leb_not_nan in E. destruct E as [E _].
  unfold F64.is_nan in E. destruct (PrimFloat.eqb t t); [reflexivity|discriminate].
Qed.

(** The larger of two numbers is reached from below exactly when one of
    them is. *)
Lemma leb_fmax t a b :
  F64.is_nan a = false -> F64.is_nan b = false ->
  PrimFloat.leb t (F64.fmax a b) = PrimFloat.leb t a || PrimFloat.leb t b.
Proof.
  intros Na Nb. unfold F64.fmax. destruct (PrimFloat.ltb a b) eqn:L.
  - destruct (PrimFloat.leb t a) eqn:Ea; simpl; [|reflexivity].
    eapply leb_trans; [exact Ea|]. apply ltb_leb. exact L.
  - destruct (PrimFloat.leb t b) eqn:Eb; simpl.
    + rewrite orb_true_r. eapply leb_trans; [exact Eb|]. apply not_ltb_leb; assumption.
    + rewrite orb_false_r. reflexivity.
Qed.

Lemma leb_fmin t a b :
  F64.is_nan a = false -> F64.is_nan b = false ->
  PrimFloat.leb (F64.fmin a b) t = PrimFloat.leb a t || PrimFloat.leb b t.
Proof.
  intros Na Nb. unfold F64.fmin. destruct (PrimFloat.ltb b a) eqn:L.
  - destruct (PrimFloat.leb a t) eqn:Ea; simpl; [|reflexivity].
    eapply leb_trans; [|exact Ea]. apply ltb_leb. exact L.
  - destruct (PrimFloat.leb b t) eqn:Eb; simpl.
    + rewrite orb_true_r. eapply leb_trans; [|exact Eb]. apply not_ltb_leb; assumption.
    + rewrite orb_false_r. reflexivity.
Qed.

Lemma fmax_not_nan a b :
  F64.is_nan a = false -> F64.is_nan b = false -> F64.is_nan (F64.fmax a b) = false.
Proof. intros Na Nb. unfold F64.fmax. destruct (PrimFloat.ltb a b); assumption. Qed.

Lemma fmin_not_nan a b :
  F64.is_nan a = false -> F64.is_nan b = false -> F64.is_nan (F64.fmin a b) = false.
Proof. intros Na Nb. unfold F64.fmin. destruct (PrimFloat.ltb b a); assumption. Qed.

Lemma leb_fold_fmax t r : forall x,
  F64.is_nan x = false -> Forall (fun y => F64.is_nan y = false) r ->
  PrimFloat.leb t (fold_left F64.fmax r x) =
  PrimFloat.leb t x || existsb (fun h => PrimFloat.leb t h) r.
Proof.
  induction r as [|y r IH]; intros x Nx Hr; simpl.
  - rewrite orb_false_r. reflexivity.
  - inversion Hr as [|? ? Ny Hr']; subst.
    rewrite IH by (try apply fmax_not_nan; assumption).
    rewrite leb_fmax by assumption. rewrite orb_assoc. reflexivity.
Qed.

Lemma leb_fold_fmin t r : forall x,
  F64.is_nan x = false -> Forall (fun y => F64.is_nan y = false) r ->
  PrimFloat.leb (fold_left F64.fmin r x) t =
  PrimFloat.leb x t || existsb (fun y => PrimFloat.leb y t) r.
Proof.
  induction r as [|y r IH]; intros x Nx Hr; simpl.
  - rewrite orb_false_r. reflexivity.
  - inversion Hr as [|? ? Ny Hr']; subst.
    rewrite IH by (try apply fmin_not_nan; assumption).
    rewrite leb_fmin by assumption. rewrite orb_assoc. reflexivity.
Qed.

Lemma existsb_skip_nan (p : float -> bool) l :
  (forall x, F64.is_nan x = true -> p x = false) ->
  existsb p (List.filter (fun x => negb (F64.is_nan x)) l) = existsb p l.
Proof.
  intros Hp. induction l as [|x l IH]; simpl; [reflexivity|].
  destruct (F64.is_nan x) eqn:N; simpl.
  - rewrite (Hp x N). exact IH.
  - rewrite IH. reflexivity.
Qed.

Lemma filter_not_nan l :
  Forall (fun y => F64.is_nan y = false) (List.filter (fun x => negb (F64.is_nan x)) l).
Proof.
  apply List.Forall_forall. intros x Hx. apply List.filter_In in Hx.
  destruct Hx as [_ Hx]. destruct (F64.is_nan x); [discriminate|reflexivity].
Qed.

(** [Series.max() >= t] holds exactly when some entry is [>= t]. *)
Lemma series_max_geb l t :
  F64.geb (F64.series_max l) t = existsb (fun h => F64.geb h t) l.
Proof.
  unfold F64.geb, F64.series_max.
  rewrite <- (existsb_skip_nan (fun h => PrimFloat.leb t h) l) by (intros; apply leb_nan_r; assumption).
  pose proof (filter_not_nan l) as Hf.
  destruct (List.filter (fun x => negb (F64.is_nan x)) l) as [|x r]; simpl.
  - apply leb_nan_r. reflexivity.
  - inversion Hf; subst. apply leb_fold_fmax; assumption.
Qed.

(** [Series.min() <= t] holds exactly when some entry is [<= t]. *)
Lemma series_min_leb l t :
  PrimFloat.leb (F64.series_min l) t = existsb (fun x => PrimFloat.leb x t) l.
Proof.
  unfold F64.series_min.
  rewrite <- (existsb_skip_nan (fun x => PrimFloat.leb x t) l)
    by (intros; apply leb_nan_l; assumption).
  pose proof (filter_not_nan l) as Hf.
  destruct (List.filter (fun x => negb (F64.is_nan x)) l) as [|x r]; simpl.
  - apply leb_nan_l. reflexivity.
  - inversion Hf; subst. apply leb_fold_fmin; assumption.
Qed.

End FloatOrder.

(** ** Lists: the first row of a selection *)

Section FirstRow.
Context {A : Type}.

Lemma filter_head_split (p : A -> bool) (l : list A) b r :
  List.filter p l = b :: r ->
  exists pre post,
    l = pre ++ b :: post /\ Forall (fun x => p x = false) pre /\ p b = true.
Proof.
  induction l as [|a l IH]; simpl; intros E; [discriminate|].
  destruct (p a) eqn:Pa.
  - inversion E; subst. exists [], l. repeat split; auto.
  - destruct (IH E) as (pre & post & -> & Hpre & Hb).
    exists (a :: pre), post. repeat split; auto.
Qed.

Lemma filter_nil_none (p : A -> bool) (l : list A) :
  List.filter p l = [] <-> (forall x, In x l -> p x = false).
Proof.
  split.
  - intros E x Hx. destruct (p x) eqn:Px; [|reflexivity].
    assert (In x (List.filter p l)) as Hin by (apply List.filter_In; auto).
    rewrite E in Hin. destruct Hin.
  - intros Hall. induction l as [|a l IH]; simpl; [reflexivity|].
    rewrite (Hall a) by (left; reflexivity). apply IH. intros x Hx. apply Hall. right. exact Hx.
Qed.

Lemma filter_filter_andb (p q : A -> bool) (l : list A) :
  List.filter q (List.filter p l) = List.filter (fun x => p x && q x) l.
Proof.
  induction l as [|a l IH]; simpl; [reflexivity|].
  destruct (p a); simpl; [|exact IH]. destruct (q a); simpl; rewrite IH; reflexivity.
Qed.

Lemma existsb_false_iff (p : A -> bool) (l : list A) :
  existsb p l = false <-> (forall x, In x l -> p x = false).
Proof.
  split.
  - intros E x Hx. destruct (p x) eqn:Px; [|reflexivity].
    assert (existsb p l = true) by (apply List.existsb_exists; eauto). congruence.
  - intros Hall. destruct (existsb p l) eqn:E; [|reflexivity].
    apply List.existsb_exists in E. destruct E as (x & Hx & Px).
    rewrite (Hall x Hx) in Px. discriminate.
Qed.

Lemma existsb_map_compose {B : Type} (f : A -> B) (p : B -> bool) (l : list A) :
  existsb p (List.map f l) = existsb (fun x => p (f x)) l.
Proof. induction l as [|a l IH]; simpl; [reflexivity|]. rewrite IH. reflexivity. Qed.

End FirstRow.

(** ** Chronological order *)

Section Chronology.

Lemma chronological_sorted ts : chronological ts = true -> StronglySorted Z.le ts.
Proof.
  induction ts as [|t r IH]; intros C; [constructor|].
  destruct r as [|t' r']; [repeat constructor|].
  simpl in C. apply andb_true_iff in C. destruct C as [Le C].
  apply Z.leb_le in Le. specialize (IH C).
  constructor; [exact IH|].
  constructor; [exact Le|].
  inversion IH as [|? ? _ Hall]; subst.
  eapply List.Forall_impl; [|exact Hall]. intros x Hx. simpl in Hx. lia.
Qed.

Lemma sorted_after (bars pre post : list (Bar Z)) (b : Bar Z) :
  StronglySorted Z.le (List.map Datetime bars) ->
  bars = pre ++ b :: post ->
  forall x, In x post -> Datetime b <= Datetime x.
Proof.
  intros S -> x Hx. rewrite List.map_app in S. simpl in S.
  induction pre as [|a pre IH]; simpl in S.
  - inversion S as [|? ? _ Hall]; subst.
    rewrite List.Forall_forall in Hall. apply Hall. apply List.in_map. exact Hx.
  - inversion S; subst. apply IH. assumption.
Qed.

(** In a chronological series the first row of a selection is its
    earliest one. *)
Lemma first_selected_earliest (p : Bar Z -> bool) (bars : list (Bar Z)) b r :
  chronological (List.map Datetime bars) = true ->
  List.filter p bars = b :: r ->
  In b bars /\ p b = true /\
  forall x, In x bars -> p x = true -> Datetime b <= Datetime x.
Proof.
  intros C E. apply chronological_sorted in C.
  destruct (filter_head_split p bars b r E) as (pre & post & Hl & Hpre & Pb).
  split; [subst; apply List.in_or_app; right; left; reflexivity|].
  split; [exact Pb|].
  intros x Hx Px. rewrite Hl in Hx. apply List.in_app_or in Hx.
  destruct Hx as [Hx|[Hx|Hx]].
  - rewrite List.Forall_forall in Hpre. rewrite (Hpre x Hx) in Px. discriminate.
  - subst. lia.
  - eapply sorted_after; eassumption.
Qed.

End Chronology.

(** ** The groups of [groupby_date] *)

Section Groups.

Lemma insert_date_In d ds x : In x (insert_date d ds) <-> x = d \/ In x ds.
Proof.
  induction ds as [|d' r IH]; simpl.
  - intuition.
  - destruct (d <? d') eqn:L; simpl; [intuition|].
    destruct (d =? d') eqn:E; simpl.
    + apply Z.eqb_eq in E. subst. intuition.
    + rewrite IH. intuition.
Qed.

Lemma insert_date_sorted d ds :
  StronglySorted Z.lt ds -> StronglySorted Z.lt (insert_date d ds).
Proof.
  induction ds as [|d' r IH]; simpl; intros S.
  - repeat constructor.
  - inversion S as [|? ? Sr Hall]; subst.
    destruct (d <? d') eqn:L.
    + apply Z.ltb_lt in L. constructor; [exact S|].
      constructor; [exact L|].
      eapply List.Forall_impl; [|exact Hall]. intros x Hx. simpl in Hx. lia.
    + destruct (d =? d') eqn:E; [exact S|].
      apply Z.ltb_ge in L. apply Z.eqb_neq in E.
      constructor; [apply IH; exact Sr|].
      apply List.Forall_forall. intros x Hx. apply insert_date_In in Hx.
      destruct Hx as [->|Hx]; [lia|].
      rewrite List.Forall_forall in Hall. apply Hall. exact Hx.
Qed.

Lemma group_dates_In rows d :
  In d (group_dates rows) <-> exists b, In b rows /\ date_of (Datetime b) = d.
Proof.
  unfold group_dates. induction rows as [|a rows IH]; simpl.
  - split; [intros []|intros (b & [] & _)].
  - rewrite insert_date_In, IH. split.
    + intros [->|(b & Hb & E)]; [exists a; auto|exists b; auto].
    + intros (b & [->|Hb] & E); [left; auto|right; exists b; auto].
Qed.

Lemma group_dates_sorted rows : StronglySorted Z.lt (group_dates rows).
Proof.
  unfold group_dates. induction rows as [|a rows IH]; simpl.
  - constructor.
  - apply insert_date_sorted. exact IH.
Qed.

Lemma day_reaches_existsb action target_price daily_data :
  day_reaches action target_price daily_data =
  existsb (reaches action target_price) daily_data.
Proof.
  unfold day_reaches, reaches. destruct (String.eqb action "BUY").
  - rewrite series_max_geb. apply existsb_map_compose.
  - rewrite series_min_leb. apply (existsb_map_compose Low (fun x => PrimFloat.leb x target_price)).
Qed.

End Groups.

(** ** The loop over the days *)

Section Scan.

Lemma eqb_refl_of_leb_r t h : PrimFloat.leb h t = true -> PrimFloat.eqb t t = true.
Proof.
  intros E. apply leb_not_nan in E. destruct E as [_ E].
  unfold F64.is_nan in E. destruct (PrimFloat.eqb t t); [reflexivity|discriminate].
Qed.

Lemma reaches_target_not_nan action target_price b :
  reaches action target_price b = true -> PrimFloat.eqb target_price target_price = true.
Proof.
  unfold reaches, F64.geb. destruct (String.eqb action "BUY"); intros E.
  - eapply eqb_refl_of_leb. exact E.
  - eapply eqb_refl_of_leb_r. exact E.
Qed.

(** The target condition, by direction: for a purchase the high of the bar
    is at least the target, otherwise its low is at most the target;
    equality counts. *)
Lemma reaches_long target_price b :
  reaches "BUY" target_price b = PrimFloat.leb target_price (High b).
Proof. reflexivity. Qed.

Lemma reaches_short action target_price b :
  String.eqb action "BUY" = false ->
  reaches action target_price b = PrimFloat.leb (Low b) target_price.
Proof. intros E. unfold reaches. rewrite E. reflexivity. Qed.

Lemma on_date_true d b : on_date d b = true <-> date_of (Datetime b) = d.
Proof. unfold on_date. apply Z.eqb_eq. Qed.

(** The loop over the groups of the days [ds] of [rows]. *)
Lemma scan_days_dates action target_price rows ds :
  StronglySorted Z.lt ds ->
  match scan_days action target_price
          (List.map (fun d => (d, List.filter (on_date d) rows)) ds) with
  | Raise _ => False
  | Ok None =>
      forall d, In d ds -> forall b, In b rows -> on_date d b = true ->
                reaches action target_price b = false
  | Ok (Some (p, t)) =>
      p = target_price /\
      exists d b r,
        In d ds /\
        List.filter (reaches action target_price) (List.filter (on_date d) rows) = b :: r /\
        t = Datetime b /\
        forall d', In d' ds -> d' < d -> forall x, In x rows -> on_date d' x = true ->
                   reaches action target_price x = false
  end.
Proof.
  induction ds as [|d ds IH]; intros S; simpl.
  - intros d [].
  - inversion S as [|? ? S' Hall]; subst. rewrite List.Forall_forall in Hall.
    rewrite day_reaches_existsb.
    destruct (existsb (reaches action target_price) (List.filter (on_date d) rows)) eqn:Ex.
    + destruct (List.filter (reaches action target_price) (List.filter (on_date d) rows))
        as [|b r] eqn:F.
      * apply List.existsb_exists in Ex. destruct Ex as (x & Hx & Rx).
        rewrite (proj1 (filter_nil_none _ _) F x Hx) in Rx. discriminate.
      * split; [reflexivity|]. exists d, b, r.
        split; [left; reflexivity|]. split; [exact F|]. split; [reflexivity|].
        intros d' [->|Hd'] Lt; [lia|]. specialize (Hall d' Hd'). lia.
    + specialize (IH S').
      pose proof (proj1 (existsb_false_iff _ _) Ex) as None_d.
      destruct (scan_days action target_price
                  (List.map (fun d0 => (d0, List.filter (on_date d0) rows)) ds))
        as [[[p t]|]|e]; [| |exact IH].
      * destruct IH as (-> & d1 & b & r & Hd1 & F & -> & Early).
        split; [reflexivity|]. exists d1, b, r.
        split; [right; exact Hd1|]. split; [exact F|]. split; [reflexivity|].
        intros d' [->|Hd'] Lt x Hx Ox.
        -- apply None_d. apply List.filter_In. auto.
        -- eapply Early; eassumption.
      * intros d' [->|Hd'] b Hb Ob.
        -- apply None_d. apply List.filter_In. auto.
        -- eapply IH; eassumption.
Qed.

(** The loop over [groupby_date rows]: it never fails; it leaves empty
    handed exactly when no row reaches the target; otherwise it stops in
    the first day that has such a row, at the first of them in the order of
    the frame. *)
Lemma scan_groupby action target_price rows :
  match scan_days action target_price (groupby_date rows) with
  | Raise _ => False
  | Ok None => forall b, In b rows -> reaches action target_price b = false
  | Ok (Some (p, t)) =>
      p = target_price /\
      exists b r,
        List.filter (fun x => on_date (date_of (Datetime b)) x && reaches action target_price x)
          rows = b :: r /\
        t = Datetime b /\
        forall x, In x rows -> reaches action target_price x = true ->
                  date_of (Datetime b) <= date_of (Datetime x)
  end.
Proof.
  unfold groupby_date.
  pose proof (scan_days_dates action target_price rows (group_dates rows)
                (group_dates_sorted rows)) as Sc.
  destruct (scan_days action target_price
              (List.map (fun d => (d, List.filter (on_date d) rows)) (group_dates rows)))
    as [[[p t]|]|e]; [| |exact Sc].
  - destruct Sc as (-> & d & b & r & Hd & F & -> & Early).
    split; [reflexivity|]. exists b, r.
    assert (In b (List.filter (reaches action target_price) (List.filter (on_date d) rows)))
      as Hb by (rewrite F; left; reflexivity).
    apply List.filter_In in Hb. destruct Hb as [Hb _].
    apply List.filter_In in Hb. destruct Hb as [_ Ob]. apply on_date_true in Ob.
    rewrite filter_filter_andb in F. rewrite Ob.
    split; [exact F|]. split; [reflexivity|].
    intros x Hx Rx.
    destruct (Z_lt_le_dec (date_of (Datetime x)) d) as [Lt|Le]; [|exact Le].
    exfalso.
    assert (In (date_of (Datetime x)) (group_dates rows)) as Hdx
      by (apply group_dates_In; exists x; auto).
    rewrite (Early _ Hdx Lt x Hx) in Rx; [discriminate|].
    apply on_date_true. reflexivity.
  - intros b Hb. apply (Sc (date_of (Datetime b))).
    + apply group_dates_In. exists b. auto.
    + exact Hb.
    + apply on_date_true. reflexivity.
Qed.

End Scan.

(** ** [execute_trade], step by step *)

Section ExecuteTrade.
Context `{Externals}.

(** What a call returns is what [simulate] computes on the rows of the
    converted frame. *)
Lemma execute_trade_result self tick action df size agent reason tf pct ref mx df' :
  reference_date self = Some ref ->
  max_exit_time_of ref tf = Ok mx ->
  convert_datetime df = Ok df' ->
  snd (execute_trade self tick action df size agent reason tf pct) =
  match simulate (fee_pct self) ref mx tick action (bars_of df') size agent reason tf pct with
  | Ok (_, r) => Ok r
  | Raise e => Raise e
  end.
Proof.
  intros R M C. unfold execute_trade. rewrite R, M, C.
  destruct (simulate (fee_pct self) ref mx tick action (bars_of df') size agent reason tf pct)
    as [[pos r]|e]; reflexivity.
Qed.

Lemma execute_trade_Ok self tick action df size agent reason tf pct r :
  snd (execute_trade self tick action df size agent reason tf pct) = Ok r ->
  exists ref mx df' pos,
    reference_date self = Some ref /\
    max_exit_time_of ref tf = Ok mx /\
    convert_datetime df = Ok df' /\
    simulate (fee_pct self) ref mx tick action (bars_of df') size agent reason tf pct
    = Ok (pos, r).
Proof.
  unfold execute_trade.
  destruct (reference_date self) as [ref|] eqn:R; [|discriminate].
  destruct (max_exit_time_of ref tf) as [mx|e] eqn:M; [|discriminate].
  destruct (convert_datetime df) as [df'|e] eqn:C; [|discriminate].
  destruct (simulate (fee_pct self) ref mx tick action (bars_of df') size agent reason tf pct)
    as [[pos r']|e] eqn:S; simpl; [|discriminate].
  intros E. inversion E; subst. exists ref, mx, df', pos. auto.
Qed.

End ExecuteTrade.

Section Simulate.

Lemma simulate_Ok fee ref mx tick action bars size agent reason tf pct pos r :
  simulate fee ref mx tick action bars size agent reason tf pct = Ok (pos, r) ->
  exists e rest found ex,
    List.filter (at_or_after ref) bars = e :: rest /\
    scan_days action (target_price_of action (Close e) pct)
      (groupby_date (List.filter (in_window (Datetime e) mx) bars)) = Ok found /\
    match found with Some x => Ok x | None => time_limit_exit mx bars end = Ok ex /\
    r = result_of fee tick action size agent reason tf pct e ex.
Proof.
  unfold simulate.
  destruct (List.filter (at_or_after ref) bars) as [|e rest] eqn:F; [discriminate|].
  destruct (scan_days action (target_price_of action (Close e) pct)
              (groupby_date (List.filter (in_window (Datetime e) mx) bars)))
    as [found|err] eqn:S; simpl; [|discriminate].
  destruct (match found with Some x => Ok x | None => time_limit_exit mx bars end)
    as [ex|err] eqn:X; simpl; [|discriminate].
  intros E. inversion E; subst. exists e, rest, found, ex. auto.
Qed.

Lemma simulate_steps fee ref mx tick action bars size agent reason tf pct e rest found ex :
  List.filter (at_or_after ref) bars = e :: rest ->
  scan_days action (target_price_of action (Close e) pct)
    (groupby_date (List.filter (in_window (Datetime e) mx) bars)) = Ok found ->
  match found with Some x => Ok x | None => time_limit_exit mx bars end = Ok ex ->
  exists pos,
    simulate fee ref mx tick action bars size agent reason tf pct
    = Ok (pos, result_of fee tick action size agent reason tf pct e ex).
Proof.
  intros E S X. unfold simulate. rewrite E, S. simpl. rewrite X. simpl.
  eexists. reflexivity.
Qed.

Lemma simulate_no_entry fee ref mx tick action bars size agent reason tf pct :
  List.filter (at_or_after ref) bars = [] ->
  simulate fee ref mx tick action bars size agent reason tf pct = Raise (NoEntryData ref).
Proof. intros E. unfold simulate. rewrite E. reflexivity. Qed.

End Simulate.

(** ** Exit at the profit target *)

Section TargetHit.
Context `{Externals}.

Lemma simulate_target_hit fee ref mx tick action bars size agent reason tf pct e rest b :
  chronological (List.map Datetime bars) = true ->
  List.filter (at_or_after ref) bars = e :: rest ->
  In b bars ->
  in_window (Datetime e) mx b = true ->
  reaches action (target_price_of action (Close e) pct) b = true ->
  exists pos x,
    simulate fee ref mx tick action bars size agent reason tf pct
    = Ok (pos, result_of fee tick action size agent reason tf pct e
                 (target_price_of action (Close e) pct, Datetime x)) /\
    In x bars /\
    in_window (Datetime e) mx x = true /\
    reaches action (target_price_of action (Close e) pct) x = true /\
    forall y, In y bars ->
              in_window (Datetime e) mx y = true ->
              reaches action (target_price_of action (Close e) pct) y = true ->
              date_of (Datetime x) <= date_of (Datetime y) /\
              (date_of (Datetime y) = date_of (Datetime x) -> Datetime x <= Datetime y).
Proof.
  intros C E Hb Wb Rb.
  set (target := target_price_of action (Close e) pct) in *.
  set (rows := List.filter (in_window (Datetime e) mx) bars).
  pose proof (scan_groupby action target rows) as Sc.
  destruct (scan_days action target (groupby_date rows)) as [[[p t]|]|err] eqn:S;
    [| |contradiction].
  - destruct Sc as (-> & x & r & F & -> & First).
    unfold rows in F. rewrite filter_filter_andb in F.
    destruct (first_selected_earliest _ bars x r C F) as (Hx & Px & Early).
    apply andb_true_iff in Px. destruct Px as [Wx Px].
    apply andb_true_iff in Px. destruct Px as [_ Rx].
    destruct (simulate_steps fee ref mx tick action bars size agent reason tf pct
                e rest (Some (target, Datetime x)) (target, Datetime x) E S eq_refl)
      as [pos Sim].
    exists pos, x. split; [exact Sim|].
    split; [exact Hx|]. split; [exact Wx|]. split; [exact Rx|].
    intros y Hy Wy Ry. split.
    + apply First; [|exact Ry]. apply List.filter_In. auto.
    + intros D. apply Early; [exact Hy|].
      rewrite Wy, Ry, andb_true_r. simpl. apply on_date_true. exact D.
  - exfalso. rewrite (Sc b) in Rb; [discriminate|].
    apply List.filter_In. auto.
Qed.

End TargetHit.


(** ** Frames and their conversion *)

Section Conversion.
Context `{Externals}.

Lemma frame_of_is_datetime64 bars : is_datetime64_any_dtype (frame_of bars) = true.
Proof. induction bars as [|b bars IH]; simpl; [reflexivity|exact IH]. Qed.

Lemma pd_to_datetime_length df bars :
  pd_to_datetime df = Some bars -> length bars = length df.
Proof.
  revert bars. induction df as [|b df IH]; simpl; intros bars E.
  - inversion E. reflexivity.
  - destruct (instant (Datetime b)) as [t|]; [|discriminate].
    destruct (pd_to_datetime df) as [r|]; [|discriminate].
    inversion E; subst. simpl. rewrite (IH r eq_refl). reflexivity.
Qed.

Lemma convert_datetime_idempotent df df' :
  convert_datetime df = Ok df' -> convert_datetime df' = Ok df'.
Proof.
  unfold convert_datetime. destruct (is_datetime64_any_dtype df) eqn:D; simpl.
  - intros E. inversion E; subst. rewrite D. reflexivity.
  - destruct (pd_to_datetime df) as [bars|]; [|discriminate].
    intros E. inversion E; subst. rewrite frame_of_is_datetime64. reflexivity.
Qed.

Lemma convert_datetime_nil df df' :
  convert_datetime df = Ok df' -> (df' = [] <-> df = []).
Proof.
  unfold convert_datetime. destruct (is_datetime64_any_dtype df) eqn:D; simpl.
  - intros E. inversion E; subst. tauto.
  - destruct (pd_to_datetime df) as [bars|] eqn:P; [|discriminate].
    intros E. inversion E; subst. apply pd_to_datetime_length in P.
    unfold frame_of. split; intros E0.
    + apply (f_equal (@length _)) in E0. rewrite List.length_map in E0. simpl in E0.
      destruct df; [reflexivity|simpl in P; lia].
    + subst. simpl in P. destruct bars; [reflexivity|discriminate].
Qed.

(** The values of the rows survive the conversion: the OHLCV columns are
    untouched and every cell of [Datetime] denotes the instant it did. *)
Lemma pd_to_datetime_values df bars :
  pd_to_datetime df = Some bars ->
  List.map ohlcv (frame_of bars) = List.map ohlcv df /\
  List.map (fun b => instant (Datetime b)) (frame_of bars)
  = List.map (fun b => instant (Datetime b)) df.
Proof.
  revert bars. induction df as [|b df IH]; simpl; intros bars E.
  - inversion E. split; reflexivity.
  - destruct (instant (Datetime b)) as [t|] eqn:I; [|discriminate].
    destruct (pd_to_datetime df) as [r|]; [|discriminate].
    inversion E; subst. destruct (IH r eq_refl) as [IH1 IH2].
    simpl. rewrite IH1, IH2. split; reflexivity.
Qed.

End Conversion.

(** ** The loop of [run_backtest] *)

Section Batch.
Context `{Externals}.

Lemma execute_trade_congr self1 self2 tick action df1 df2 size agent reason tf pct :
  fee_pct self1 = fee_pct self2 ->
  reference_date self1 = reference_date self2 ->
  convert_datetime df1 = convert_datetime df2 ->
  snd (execute_trade self1 tick action df1 size agent reason tf pct)
  = snd (execute_trade self2 tick action df2 size agent reason tf pct).
Proof.
  intros F R C. unfold execute_trade. rewrite F, R, C.
  destruct (reference_date self2) as [ref|]; [|reflexivity].
  destruct (max_exit_time_of ref tf) as [mx|e]; [|reflexivity].
  destruct (convert_datetime df2) as [df'|e]; [|reflexivity].
  destruct (simulate (fee_pct self2) ref mx tick action (bars_of df') size agent reason tf pct)
    as [[pos r]|e]; reflexivity.
Qed.

(** The framework and the frame after a call. *)
Lemma execute_trade_state self tick action df size agent reason tf pct :
  let out := execute_trade self tick action df size agent reason tf pct in
  let self' := fst (fst out) in
  let df' := snd (fst out) in
  fee_pct self' = fee_pct self /\
  reference_date self' = reference_date self /\
  logger self' = logger self /\
  trades self' = trades self ++ option_list (outcome_to_option (snd out)) /\
  frame_agrees df' df.
Proof.
  unfold execute_trade, frame_agrees.
  destruct (reference_date self) as [ref|] eqn:R; simpl;
    [|rewrite List.app_nil_r; repeat split; auto].
  destruct (max_exit_time_of ref tf) as [mx|e]; simpl;
    [|rewrite List.app_nil_r; repeat split; auto].
  destruct (convert_datetime df) as [df'|e] eqn:C; simpl;
    [|rewrite List.app_nil_r; repeat split; auto].
  pose proof (convert_datetime_idempotent df df' C) as C'.
  pose proof (convert_datetime_nil df df' C) as N.
  destruct (simulate (fee_pct self) ref mx tick action (bars_of df') size agent reason tf pct)
    as [[pos r]|e]; simpl; rewrite ?List.app_nil_r;
    (repeat split; auto; try congruence; try apply N).
Qed.

Lemma frames_agree_insert m m0 t df df1 :
  frames_agree m m0 -> m !! t = Some df1 -> frame_agrees df df1 ->
  frames_agree (<[t := df]> m) m0.
Proof.
  intros A L [C N] t'. specialize (A t').
  destruct (decide (t = t')) as [->|Ne].
  - rewrite lookup_insert_eq. rewrite L in A.
    destruct (m0 !! t') as [df0|]; [|contradiction].
    destruct A as [C0 N0]. split; [congruence|tauto].
  - rewrite lookup_insert_ne by exact Ne. exact A.
Qed.

Lemma count_errors_app l1 l2 : count_errors (l1 ++ l2) = (count_errors l1 + count_errors l2)%nat.
Proof. unfold count_errors. rewrite List.filter_app, List.length_app. reflexivity. Qed.

Lemma count_errors_info l : is_error_record l = false -> count_errors [l] = 0%nat.
Proof. intros E. unfold count_errors. simpl. rewrite E. reflexivity. Qed.

(** One turn of the loop: the state still agrees with the one the run
    started from, the trades grow by what the decision yields on its own,
    and a skipped decision leaves one failure on record. *)
Lemma process_response_step st0 st response :
  state_agrees st st0 ->
  let st' := process_response st response in
  state_agrees st' st0 /\
  trades (fst st') = trades (fst st) ++ option_list (decision_result (fst st0) (snd st0) response) /\
  count_errors (logger (fst st')) =
  (count_errors (logger (fst st))
   + match decision_result (fst st0) (snd st0) response with Some _ => 0 | None => 1 end)%nat.
Proof.
  destruct st as [s m], st0 as [s0 m0]. intros (F & R & A). simpl in F, R, A.
  unfold process_response, decision_result, state_agrees. simpl.
  assert (forall l, is_error_record l = true ->
            state_agrees (log (log s (InfoProcessingTrade response)) l, m) (s0, m0) /\
            trades (log (log s (InfoProcessingTrade response)) l) = trades s ++ [] /\
            count_errors (logger (log (log s (InfoProcessingTrade response)) l))
            = (count_errors (logger s) + 1)%nat) as Skip.
  { intros l El. unfold state_agrees. simpl. rewrite List.app_nil_r.
    repeat split; auto. rewrite !count_errors_app. unfold count_errors at 2 3. simpl.
    rewrite El. simpl. lia. }
  destruct (r_ticker response) as [tick|]; [|apply Skip; reflexivity].
  destruct (r_action response) as [action|]; [|apply Skip; reflexivity].
  destruct (r_amount response) as [amount|]; [|apply Skip; reflexivity].
  destruct (r_expected_timeframe response) as [tf|]; [|apply Skip; reflexivity].
  pose proof (A tick) as At.
  destruct (m !! tick) as [df|] eqn:L, (m0 !! tick) as [df0|] eqn:L0; try contradiction;
    [|apply Skip; reflexivity].
  destruct At as [Cv Nil].
  destruct df as [|b df].
  { rewrite (proj1 Nil eq_refl). apply Skip. reflexivity. }
  destruct df0 as [|b0 df0]; [destruct Nil as [_ Nil]; discriminate (Nil eq_refl)|].
  destruct (call_arguments response amount) as [[size pct]|e]; [|apply Skip; reflexivity].
  set (s1 := log s (InfoProcessingTrade response)).
  pose proof (execute_trade_state s1 tick action (b :: df) size
                (default "unknown" (r_persona response)) (default "" (r_reasoning response))
                tf pct) as St.
  pose proof (execute_trade_congr s1 s0 tick action (b :: df) (b0 :: df0) size
                (default "unknown" (r_persona response)) (default "" (r_reasoning response))
                tf pct F R Cv) as Cg.
  destruct (execute_trade s1 tick action (b :: df) size
              (default "unknown" (r_persona response)) (default "" (r_reasoning response))
              tf pct) as [[s' df'] res].
  simpl in St, Cg. destruct St as (F' & R' & Lg & Tr & Ag).
  rewrite <- Cg.
  assert (frames_agree (<[tick := df']> m) m0) as A'
    by (eapply frames_agree_insert; eassumption).
  destruct res as [r|e]; simpl in *; unfold state_agrees; simpl;
    rewrite Lg, !count_errors_app; rewrite ?List.app_nil_r in *;
    (repeat split; auto; try congruence); unfold count_errors; simpl; lia.
Qed.

Lemma fold_process_response st0 responses : forall st,
  state_agrees st st0 ->
  let st' := fold_left process_response responses st in
  state_agrees st' st0 /\
  trades (fst st') = trades (fst st) ++ omap (decision_result (fst st0) (snd st0)) responses /\
  (count_errors (logger (fst st')) + length (omap (decision_result (fst st0) (snd st0)) responses)
   = count_errors (logger (fst st)) + length responses)%nat.
Proof.
  induction responses as [|response responses IH]; intros st A; simpl.
  - rewrite List.app_nil_r. split; [exact A|]. split; [reflexivity|]. simpl. lia.
  - destruct (process_response_step st0 st response A) as (A1 & T1 & E1).
    destruct (IH (process_response st response) A1) as (A2 & T2 & E2).
    split; [exact A2|]. rewrite E1 in E2. rewrite T2, T1.
    destruct (decision_result (fst st0) (snd st0) response) as [r|]; simpl in *;
      rewrite <- ?List.app_assoc, ?List.app_nil_r;
      (split; [reflexivity|unfold omap in *; lia]).
Qed.

End Batch.

(** ** The run as a whole *)

Section Run.
Context `{Externals}.

Lemma frames_agree_refl m : frames_agree m m.
Proof. intros t. destruct (m !! t); [split; tauto|exact I]. Qed.

(** The trades of a run are what the decisions yield on their own, in
    their order; every skipped decision leaves one failure on record. *)
Lemma run_backtest_trades self market_data agent_responses :
  let out := run_backtest self market_data agent_responses in
  snd (snd out) = omap (decision_result self market_data) agent_responses /\
  trades (fst (fst out)) = snd (snd out) /\
  (count_errors (logger (fst (fst out))) + length (snd (snd out))
   = count_errors (logger self) + length agent_responses)%nat.
Proof.
  unfold run_backtest.
  set (s1 := reset_state (log self InfoStartingBacktest)).
  assert (state_agrees (s1, market_data) (self, market_data)) as A.
  { unfold state_agrees. simpl. repeat split; auto. apply frames_agree_refl. }
  destruct (fold_process_response (self, market_data) agent_responses (s1, market_data) A)
    as (_ & T & E).
  simpl in T, E. simpl.
  split; [exact T|]. split; [reflexivity|].
  rewrite count_errors_app, count_errors_info by reflexivity.
  rewrite count_errors_app, count_errors_info in E by reflexivity.
  rewrite T. lia.
Qed.

Lemma run_backtest_total_trades self market_data agent_responses :
  total_trades (fst (snd (run_backtest self market_data agent_responses)))
  = length agent_responses.
Proof.
  unfold run_backtest. simpl.
  destruct (trades (fst (fold_left process_response agent_responses
                           (reset_state (log self InfoStartingBacktest), market_data))));
    reflexivity.
Qed.

Lemma decision_result_no_reference self market_data response :
  reference_date self = None -> decision_result self market_data response = None.
Proof.
  intros R. unfold decision_result.
  destruct (r_ticker response); [|reflexivity].
  destruct (r_action response); [|reflexivity].
  destruct (r_amount response); [|reflexivity].
  destruct (r_expected_timeframe response); [|reflexivity].
  destruct (market_data !! _) as [[|b df]|]; try reflexivity.
  destruct (call_arguments response _) as [[size pct]|e]; [|reflexivity].
  unfold execute_trade. rewrite R. reflexivity.
Qed.

Lemma omap_all_none {A B : Type} (f : A -> option B) (l : list A) :
  (forall x, f x = None) -> omap f l = [].
Proof.
  intros N. induction l as [|a l IH]; [reflexivity|].
  simpl. rewrite N. exact IH.
Qed.

End Run.

(** ** Exit at the time limit *)

Section TimeLimit.
Context `{Externals}.

(** When no bar of the window reaches the target, the exit is at the first
    bar at or after [max_exit_time] at its close, or the call fails for want
    of such a bar; the reason reported is the time limit unless that close
    equals the target price. *)
Lemma time_limit_path self tick action df size agent reason tf pct ref mx df' e rest :
  reference_date self = Some ref ->
  max_exit_time_of ref tf = Ok mx ->
  convert_datetime df = Ok df' ->
  List.filter (at_or_after ref) (bars_of df') = e :: rest ->
  (forall b, In b (bars_of df') -> in_window (Datetime e) mx b = true ->
             reaches action (target_price_of action (Close e) pct) b = false) ->
  match List.filter (at_or_after mx) (bars_of df') with
  | [] => snd (execute_trade self tick action df size agent reason tf pct)
          = Raise (NoExitData mx)
  | x :: _ =>
      exists r,
        snd (execute_trade self tick action df size agent reason tf pct) = Ok r /\
        exit_price r = Close x /\
        exit_time r = Datetime x /\
        exit_reason r =
        if PrimFloat.eqb (Close x) (target_price_of action (Close e) pct)
        then ProfitTargetReached (pct * 100)%float
        else TimeBasedExit tf
  end.
Proof.
  intros R M C E None_reaches.
  rewrite (execute_trade_result self tick action df size agent reason tf pct ref mx df' R M C).
  pose proof (scan_groupby action (target_price_of action (Close e) pct)
                (List.filter (in_window (Datetime e) mx) (bars_of df'))) as Sc.
  destruct (scan_days action (target_price_of action (Close e) pct)
              (groupby_date (List.filter (in_window (Datetime e) mx) (bars_of df'))))
    as [[[p t]|]|err] eqn:S; [| |contradiction].
  - exfalso. destruct Sc as (_ & b & r & F & _).
    assert (In b (b :: r)) as Hb by (left; reflexivity).
    rewrite <- F in Hb. apply List.filter_In in Hb. destruct Hb as [Hb Pb].
    apply List.filter_In in Hb. destruct Hb as [Hb Wb].
    apply andb_true_iff in Pb. destruct Pb as [_ Rb].
    rewrite (None_reaches b Hb Wb) in Rb. discriminate.
  - destruct (List.filter (at_or_after mx) (bars_of df')) as [|x xs] eqn:X.
    + unfold simulate. rewrite E, S. simpl. unfold time_limit_exit. rewrite X. reflexivity.
    + destruct (simulate_steps (fee_pct self) ref mx tick action (bars_of df') size agent
                  reason tf pct e rest None (Close x, Datetime x) E S) as [pos Sim].
      { unfold time_limit_exit. rewrite X. reflexivity. }
      rewrite Sim. eexists. split; [reflexivity|]. repeat split.
Qed.

End TimeLimit.
(** ** The properties of the specification *)

Section Properties.
Context `{Externals}.

(** C1. When some bar of the holding window (entry time to [max_exit_time],
    both included) reaches the target (for LONG a high [>=] the target, for
    SHORT a low [<=] the target, equality included), and the series is in
    chronological order, the call returns a trade that exits at the target
    price, with the profit-target reason, at a bar [x] of the window that
    reaches the target; [x] lies in the first calendar day that has such a
    bar and is the earliest such bar of that day. *)
Theorem target_hit_exits_first_day
  self tick action df size agent reason tf pct ref mx df' e rest b :
  reference_date self = Some ref ->
  max_exit_time_of ref tf = Ok mx ->
  convert_datetime df = Ok df' ->
  chronological (List.map Datetime (bars_of df')) = true ->
  List.filter (at_or_after ref) (bars_of df') = e :: rest ->
  In b (bars_of df') ->
  in_window (Datetime e) mx b = true ->
  reaches action (target_price_of action (Close e) pct) b = true ->
  exists r x,
    snd (execute_trade self tick action df size agent reason tf pct) = Ok r /\
    entry_time r = Datetime e /\
    exit_price r = target_price_of action (Close e) pct /\
    exit_reason r = ProfitTargetReached (pct * 100)%float /\
    In x (bars_of df') /\
    in_window (entry_time r) mx x = true /\
    reaches action (exit_price r) x = true /\
    match direction r with
    | LONG => PrimFloat.leb (exit_price r) (High x) = true
    | SHORT => PrimFloat.leb (Low x) (exit_price r) = true
    end /\
    exit_time r = Datetime x /\
    forall y, In y (bars_of df') ->
              in_window (entry_time r) mx y = true ->
              reaches action (exit_price r) y = true ->
              date_of (exit_time r) <= date_of (Datetime y) /\
              (date_of (Datetime y) = date_of (exit_time r) -> exit_time r <= Datetime y).
Proof.
  intros R M C Ch E Hb Wb Rb.
  destruct (simulate_target_hit (fee_pct self) ref mx tick action (bars_of df') size agent
              reason tf pct e rest b Ch E Hb Wb Rb) as (pos & x & Sim & Hx & Wx & Rx & First).
  eexists. exists x.
  split.
  { rewrite (execute_trade_result self tick action df size agent reason tf pct ref mx df' R M C).
    rewrite Sim. reflexivity. }
  unfold result_of. simpl.
  rewrite (reaches_target_not_nan _ _ _ Rb).
  split; [reflexivity|]. split; [reflexivity|]. split; [reflexivity|].
  split; [exact Hx|]. split; [exact Wx|]. split; [exact Rx|].
  split.
  { unfold reaches, F64.geb in Rx. destruct (String.eqb action "BUY"); exact Rx. }
  split; [reflexivity|].
  intros y Hy Wy Ry. apply First; assumption.
Qed.

(** C3. The entry bar is the first bar of the series whose timestamp is at
    or after the reference time. With such a bar [e], the call either
    returns a trade whose entry price is the close of [e] and whose entry
    time is its timestamp, or it fails for want of an exit bar, and this
    only when no bar is at or after [max_exit_time] and no bar of the
    holding window reaches the target; so whenever the series has a bar at
    or after [max_exit_time], a trade entered at [e] is returned. When no
    bar is at or after the reference time the call fails with
    [DataUnavailable] (no entry data). *)
Theorem entry_is_first_bar_at_or_after_reference
  self tick action df size agent reason tf pct ref mx df' :
  reference_date self = Some ref ->
  max_exit_time_of ref tf = Ok mx ->
  convert_datetime df = Ok df' ->
  (forall pre e post,
      bars_of df' = pre ++ e :: post ->
      (forall x, In x pre -> Datetime x < ref) ->
      ref <= Datetime e ->
      ((exists r,
           snd (execute_trade self tick action df size agent reason tf pct) = Ok r /\
           entry_price r = Close e /\ entry_time r = Datetime e) \/
       (snd (execute_trade self tick action df size agent reason tf pct)
        = Raise (NoExitData mx) /\
        (forall x, In x (bars_of df') -> Datetime x < mx) /\
        (forall x, In x (bars_of df') -> in_window (Datetime e) mx x = true ->
                   reaches action (target_price_of action (Close e) pct) x = false))) /\
      (forall x, In x (bars_of df') -> mx <= Datetime x ->
                 exists r,
                   snd (execute_trade self tick action df size agent reason tf pct) = Ok r /\
                   entry_price r = Close e /\ entry_time r = Datetime e)) /\
  ((forall x, In x (bars_of df') -> Datetime x < ref) ->
   snd (execute_trade self tick action df size agent reason tf pct) = Raise (NoEntryData ref) /\
   DataUnavailable (NoEntryData ref) = true).
Proof.
  intros R M C.
  rewrite (execute_trade_result self tick action df size agent reason tf pct ref mx df' R M C).
  split.
  - intros pre e post Hb Hpre He.
    assert (List.filter (at_or_after ref) (bars_of df')
            = e :: List.filter (at_or_after ref) post) as F.
    { rewrite Hb, List.filter_app.
      rewrite (proj2 (filter_nil_none (at_or_after ref) pre)).
      - simpl. unfold at_or_after at 1. rewrite (proj2 (Z.leb_le _ _) He). reflexivity.
      - intros x Hx. unfold at_or_after. apply Z.leb_gt. apply Hpre. exact Hx. }
    pose proof (scan_groupby action (target_price_of action (Close e) pct)
                  (List.filter (in_window (Datetime e) mx) (bars_of df'))) as Sc.
    destruct (scan_days action (target_price_of action (Close e) pct)
                (groupby_date (List.filter (in_window (Datetime e) mx) (bars_of df'))))
      as [[hit|]|err'] eqn:S; [| |contradiction].
    + destruct (simulate_steps (fee_pct self) ref mx tick action (bars_of df') size agent
                  reason tf pct e _ (Some hit) hit F S eq_refl) as [pos Sim].
      rewrite Sim.
      split; [left|intros x _ _]; eexists; (split; [reflexivity|split; reflexivity]).
    + destruct (List.filter (at_or_after mx) (bars_of df')) as [|x0 xs] eqn:X.
      * assert (simulate (fee_pct self) ref mx tick action (bars_of df') size agent reason
                  tf pct = Raise (NoExitData mx)) as Sim.
        { unfold simulate. rewrite F, S. simpl. unfold time_limit_exit. rewrite X.
          reflexivity. }
        rewrite Sim.
        assert (forall x, In x (bars_of df') -> Datetime x < mx) as Before.
        { intros x Hx. apply Z.leb_gt.
          exact (proj1 (filter_nil_none (at_or_after mx) (bars_of df')) X x Hx). }
        split.
        -- right. split; [reflexivity|]. split; [exact Before|].
           intros x Hx Wx. apply Sc. apply List.filter_In. auto.
        -- intros x Hx Lx. specialize (Before x Hx). lia.
      * destruct (simulate_steps (fee_pct self) ref mx tick action (bars_of df') size agent
                    reason tf pct e _ None (Close x0, Datetime x0) F S) as [pos Sim].
        { unfold time_limit_exit. rewrite X. reflexivity. }
        rewrite Sim.
        split; [left|intros x _ _]; eexists; (split; [reflexivity|split; reflexivity]).
  - intros Hnone. split; [|reflexivity].
    rewrite simulate_no_entry; [reflexivity|].
    apply filter_nil_none. intros x Hx. unfold at_or_after. apply Z.leb_gt. apply Hnone. exact Hx.
Qed.

(** C4, as amended. Every trade the call returns carries the profit and
    loss as the code evaluates them in binary64: for LONG,
    [pnl = (exit_price * size - entry_price * size) - (entry_fee + exit_fee)]
    and [pnl_pct = ((exit_price - entry_price) / entry_price) * 100]; for
    SHORT, [pnl = (entry_price * size - exit_price * size) - (entry_fee +
    exit_fee)] and [pnl_pct = ((entry_price - exit_price) / entry_price) *
    100], with [entry_fee = entry_price * size * fee] and [exit_fee =
    exit_price * size * fee]. The formulas of the specification bracket
    the operations differently and need not give the same floats. *)
Theorem pnl_as_computed self tick action df size agent reason tf pct r :
  snd (execute_trade self tick action df size agent reason tf pct) = Ok r ->
  let e := entry_price r in
  let x := exit_price r in
  let s := position_size r in
  let f := fee_pct self in
  match direction r with
  | LONG =>
      pnl r = ((x * s - e * s) - (e * s * f + x * s * f))%float /\
      pnl_pct r = (((x - e) / e) * 100)%float
  | SHORT =>
      pnl r = ((e * s - x * s) - (e * s * f + x * s * f))%float /\
      pnl_pct r = (((e - x) / e) * 100)%float
  end.
Proof.
  intros E. apply execute_trade_Ok in E. destruct E as (ref & mx & df' & pos & _ & _ & _ & S).
  apply simulate_Ok in S. destruct S as (e & rest & found & ex & _ & _ & _ & ->).
  unfold result_of. simpl. destruct (String.eqb action "BUY"); split; reflexivity.
Qed.

(** C5, as amended. In both directions the fees of a returned trade are the
    entry fee plus the exit fee as the code evaluates them in binary64:
    [fees = entry_price * size * fee + exit_price * size * fee]; the
    product [fee * (entry_price + exit_price) * size] of the specification
    need not give the same float. *)
Theorem fees_as_computed self tick action df size agent reason tf pct r :
  snd (execute_trade self tick action df size agent reason tf pct) = Ok r ->
  fees r = (entry_price r * position_size r * fee_pct self
            + exit_price r * position_size r * fee_pct self)%float.
Proof.
  intros E. apply execute_trade_Ok in E. destruct E as (ref & mx & df' & pos & _ & _ & _ & S).
  apply simulate_Ok in S. destruct S as (e & rest & found & ex & _ & _ & _ & ->).
  reflexivity.
Qed.

(** C6. In a run, a decision that fails validation or simulation is put on
    record and the run goes on: the trades produced are exactly what each
    decision yields on its own against the market data the run started
    from, in the order of the decisions; the failures on record grow by one
    for every decision that produced no trade; and taking a failing
    decision out of the batch changes nothing for the others. *)
Theorem batch_isolates_failures self market_data agent_responses :
  let out := run_backtest self market_data agent_responses in
  let produced := snd (snd out) in
  produced = omap (decision_result self market_data) agent_responses /\
  trades (fst (fst out)) = produced /\
  (count_errors (logger (fst (fst out))) + length produced
   = count_errors (logger self) + length agent_responses)%nat /\
  (forall before failing after,
      agent_responses = before ++ failing :: after ->
      decision_result self market_data failing = None ->
      produced = snd (snd (run_backtest self market_data (before ++ after)))).
Proof.
  pose proof (run_backtest_trades self market_data agent_responses) as P.
  cbv zeta in *. destruct P as (T & S & E).
  split; [exact T|]. split; [exact S|]. split; [exact E|].
  intros before failing after -> F.
  pose proof (run_backtest_trades self market_data (before ++ after)) as P'.
  cbv zeta in P'. destruct P' as (T' & _ & _).
  rewrite T, T'. rewrite !omap_app. simpl. rewrite F. reflexivity.
Qed.

(** C7, as amended. With no reference time set, every single call of
    [execute_trade] fails (it raises the error of the missing reference
    date); in a run this failure is caught, put on record and skipped for
    each decision like any other, so the run completes: it returns no
    trade, counts every decision in [total_trades], and has as many
    failures on record as there are decisions. *)
Theorem missing_reference_is_skipped self market_data agent_responses :
  reference_date self = None ->
  (forall tick action df size agent reason tf pct,
      snd (execute_trade self tick action df size agent reason tf pct)
      = Raise MissingReferenceDate) /\
  snd (snd (run_backtest self market_data agent_responses)) = [] /\
  total_trades (fst (snd (run_backtest self market_data agent_responses)))
  = length agent_responses /\
  count_errors (logger (fst (fst (run_backtest self market_data agent_responses))))
  = (count_errors (logger self) + length agent_responses)%nat.
Proof.
  intros R. split.
  { intros. unfold execute_trade. rewrite R. reflexivity. }
  pose proof (run_backtest_trades self market_data agent_responses) as P.
  cbv zeta in P. destruct P as (T & _ & E).
  rewrite (omap_all_none _ agent_responses
             (fun response => decision_result_no_reference self market_data response R)) in T.
  split; [exact T|]. split; [apply run_backtest_total_trades|].
  rewrite T in E. cbn [length] in E. lia.
Qed.

(** C8, as amended. A call never changes a value of the series it is
    given, whatever it returns or raises: the frame after the call has, row
    for row, the same open, high, low, close and volume and the same
    instant in [Datetime], and a frame whose [Datetime] column already has
    a datetime dtype is left exactly as it was. A frame whose [Datetime]
    column has no datetime dtype is written to: as soon as the reference
    time and the timeframe have been accepted and the column can be read,
    the frame after the call is the frame with that column replaced by its
    timestamps, also when the call then raises; in every other case the
    frame is the one given. *)
Theorem execute_trade_changes_only_datetime_dtype
  self tick action df size agent reason tf pct :
  let df' := snd (fst (execute_trade self tick action df size agent reason tf pct)) in
  List.map ohlcv df' = List.map ohlcv df /\
  List.map (fun b => instant (Datetime b)) df'
  = List.map (fun b => instant (Datetime b)) df /\
  (is_datetime64_any_dtype df = true -> df' = df) /\
  (forall ref mx bars,
      reference_date self = Some ref ->
      max_exit_time_of ref tf = Ok mx ->
      is_datetime64_any_dtype df = false ->
      pd_to_datetime df = Some bars ->
      df' = frame_of bars /\ is_datetime64_any_dtype df' = true) /\
  (df' = df \/
   exists ref mx bars,
     reference_date self = Some ref /\
     max_exit_time_of ref tf = Ok mx /\
     is_datetime64_any_dtype df = false /\
     pd_to_datetime df = Some bars /\
     df' = frame_of bars).
Proof.
  unfold execute_trade.
  destruct (reference_date self) as [ref|] eqn:R; simpl.
  2:{ split; [reflexivity|]. split; [reflexivity|]. split; [reflexivity|].
      split; [|left; reflexivity]. intros ref' mx' bars' R'. discriminate R'. }
  destruct (max_exit_time_of ref tf) as [mx|e] eqn:M; simpl.
  2:{ split; [reflexivity|]. split; [reflexivity|]. split; [reflexivity|].
      split; [|left; reflexivity].
      intros ref' mx' bars' R' M'. inversion R'; subst ref'. rewrite M in M'.
      discriminate M'. }
  unfold convert_datetime.
  destruct (is_datetime64_any_dtype df) eqn:D; simpl.
  - destruct (simulate (fee_pct self) ref mx tick action (bars_of df) size agent reason tf pct)
      as [[pos r]|e]; simpl;
      (split; [reflexivity|]; split; [reflexivity|]; split; [reflexivity|];
       split; [|left; reflexivity]; intros ref' mx' bars' _ _ D'; discriminate D').
  - destruct (pd_to_datetime df) as [bars|] eqn:P; simpl.
    + destruct (pd_to_datetime_values df bars P) as [V I].
      destruct (simulate (fee_pct self) ref mx tick action (bars_of (frame_of bars)) size
                  agent reason tf pct) as [[pos r]|e]; simpl;
        (split; [exact V|]; split; [exact I|]; split; [discriminate|]; split;
         [ intros ref' mx' bars' _ _ _ E; inversion E; subst bars';
           split; [reflexivity|apply frame_of_is_datetime64]
         | right; exists ref, mx, bars; repeat split; first [reflexivity|assumption] ]).
    + split; [reflexivity|]. split; [reflexivity|]. split; [discriminate|].
      split; [|left; reflexivity]. intros ref' mx' bars' _ _ _ E. discriminate E.
Qed.

(** C9. There is a decision and a series whose entry bar itself reaches the
    target (LONG, the high of the entry bar is at least the target), and
    the call returns a trade that exits at its entry time. *)
Theorem zero_duration_trade_is_returned :
  exists self tick df size agent reason tf pct entry_bar r,
    hd_error (bars_of df) = Some entry_bar /\
    snd (execute_trade self tick "BUY" df size agent reason tf pct) = Ok r /\
    entry_time r = Datetime entry_bar /\
    entry_price r = Close entry_bar /\
    F64.geb (High entry_bar) (target_price_of "BUY" (entry_price r) pct) = true /\
    exit_reason r = ProfitTargetReached (pct * 100)%float /\
    exit_time r = entry_time r.
Proof.
  exists (framework 0.001 (Some 0)), "TICK"%string, spike_frame, 10%float,
    "agent"%string, "why"%string, "1d"%string, 0.01%float, (row_at 0 102 99 100).
  eexists. split; [reflexivity|]. split; [vm_compute; reflexivity|].
  vm_compute. repeat split.
Qed.

(** C10. The [total_trades] of the metrics a run returns is the number of
    decisions it was given, skipped ones included; it is not the number of
    trades produced, which is smaller as soon as a decision is skipped. *)
Theorem total_trades_counts_decisions :
  (forall self market_data agent_responses,
      total_trades (fst (snd (run_backtest self market_data agent_responses)))
      = length agent_responses) /\
  (exists self market_data agent_responses,
      (length (snd (snd (run_backtest self market_data agent_responses)))
       < total_trades (fst (snd (run_backtest self market_data agent_responses))))%nat).
Proof.
  split.
  - apply run_backtest_total_trades.
  - exists (framework 0.001 (Some 0)), ∅, [incomplete_response].
    vm_compute. lia.
Qed.

End Properties.

Lemma target_hit_exits_first_day_witness :
  exists r x,
    snd (execute_trade (H := seconds_reader) (framework 0.001 (Some 0)) "TICK" "BUY"
           example_frame 10 "agent" "why" "1d" 0.01) = Ok r /\
    entry_time r = 0 /\
    exit_price r = target_price_of "BUY" 100 0.01 /\
    exit_reason r = ProfitTargetReached (0.01 * 100)%float /\
    In x (bars_of example_frame) /\
    in_window (entry_time r) 86400 x = true /\
    reaches "BUY" (exit_price r) x = true /\
    match direction r with
    | LONG => PrimFloat.leb (exit_price r) (High x) = true
    | SHORT => PrimFloat.leb (Low x) (exit_price r) = true
    end /\
    exit_time r = Datetime x /\
    forall y, In y (bars_of example_frame) ->
              in_window (entry_time r) 86400 y = true ->
              reaches "BUY" (exit_price r) y = true ->
              date_of (exit_time r) <= date_of (Datetime y) /\
              (date_of (Datetime y) = date_of (exit_time r) -> exit_time r <= Datetime y).
Proof.
  apply (target_hit_exits_first_day (H := seconds_reader) (framework 0.001 (Some 0))
           "TICK" "BUY" example_frame 10 "agent" "why" "1d" 0.01 0 86400 example_frame
           (row_at 0 100 100 100)
           [row_at 3600 101 101 101; row_at 7200 99 99 99; row_at 10800 98 98 98]
           (row_at 3600 101 101 101)).
  - reflexivity.
  - reflexivity.
  - reflexivity.
  - reflexivity.
  - reflexivity.
  - right. left. reflexivity.
  - reflexivity.
  - vm_compute. reflexivity.
Defined.

(** C3 on two series. With the reference time half an hour after the
    first bar of [gap_frame], the entry is the second bar, and since the
    third bar is after the time limit a trade is returned; with the
    reference time after the last bar of [example_frame] the call fails for
    want of entry data. *)
Lemma entry_is_first_bar_at_or_after_reference_witness :
  (exists r,
      snd (execute_trade (H := seconds_reader) (framework 0.001 (Some 1800)) "TICK" "BUY"
             gap_frame 10 "agent" "why" "1d" 0.01) = Ok r /\
      entry_price r = Close (row_at 3600 100.8 100 100.5) /\
      entry_time r = Datetime (row_at 3600 100.8 100 100.5)) /\
  (snd (execute_trade (H := seconds_reader) (framework 0.001 (Some 20000)) "TICK" "BUY"
          example_frame 10 "agent" "why" "1d" 0.01) = Raise (NoEntryData 20000) /\
   DataUnavailable (NoEntryData 20000) = true).
Proof.
  split.
  - destruct (entry_is_first_bar_at_or_after_reference (H := seconds_reader)
                (framework 0.001 (Some 1800)) "TICK" "BUY" gap_frame 10 "agent" "why" "1d"
                0.01 1800 88200 gap_frame eq_refl eq_refl eq_refl) as [Entry _].
    destruct (Entry [row_at 0 100 100 100] (row_at 3600 100.8 100 100.5)
                [row_at 120600 101.5 100.9 101] eq_refl) as [_ Returned].
    + intros x [<-|[]]. simpl. lia.
    + simpl. lia.
    + apply (Returned (row_at 120600 101.5 100.9 101)).
      * right. right. left. reflexivity.
      * simpl. lia.
  - apply (entry_is_first_bar_at_or_after_reference (H := seconds_reader)
             (framework 0.001 (Some 20000)) "TICK" "BUY" example_frame 10 "agent" "why" "1d"
             0.01 20000 106400 example_frame eq_refl eq_refl eq_refl).
    intros x [<-|[<-|[<-|[<-|[]]]]]; simpl; lia.
Defined.

(** C4 as stated fails on binary64 numbers. A LONG trade entered at 10.1
    and closed at 10.3, and a SHORT trade entered at 100.1 and closed at
    99.3, both of size 3 with fee 0.001: neither [pnl] nor [pnl_pct] equals
    the value that the formula of the specification takes. *)
Lemma pnl_formulas_counterexample :
  (exists r,
      snd (execute_trade (H := seconds_reader) (framework 0.001 (Some 0)) "TICK" "BUY"
             (two_bars 10.1 10.3) 3 "agent" "why" "1d" 0.5) = Ok r /\
      direction r = LONG /\
      PrimFloat.eqb (pnl r)
        ((exit_price r - entry_price r) * position_size r - fees r)%float = false /\
      PrimFloat.eqb (pnl_pct r) ((exit_price r / entry_price r - 1) * 100)%float = false) /\
  (exists r,
      snd (execute_trade (H := seconds_reader) (framework 0.001 (Some 0)) "TICK" "SHORT"
             (two_bars 100.1 99.3) 3 "agent" "why" "1d" 0.5) = Ok r /\
      direction r = SHORT /\
      PrimFloat.eqb (pnl r)
        ((entry_price r - exit_price r) * position_size r - fees r)%float = false /\
      PrimFloat.eqb (pnl_pct r) ((1 - exit_price r / entry_price r) * 100)%float = false).
Proof.
  split; eexists; (split; [vm_compute; reflexivity|]); vm_compute; repeat split.
Qed.

Lemma pnl_as_computed_witness :
  let r := result_of 0.001 "TICK" "BUY" 3 "agent" "why" "1d" 0.5
             (row_at 0 10.1 10.1 10.1) (10.3%float, 86400) in
  let e := entry_price r in
  let x := exit_price r in
  let s := position_size r in
  let f := fee_pct (framework 0.001 (Some 0)) in
  match direction r with
  | LONG =>
      pnl r = ((x * s - e * s) - (e * s * f + x * s * f))%float /\
      pnl_pct r = (((x - e) / e) * 100)%float
  | SHORT =>
      pnl r = ((e * s - x * s) - (e * s * f + x * s * f))%float /\
      pnl_pct r = (((e - x) / e) * 100)%float
  end.
Proof.
  apply (pnl_as_computed (H := seconds_reader) (framework 0.001 (Some 0)) "TICK" "BUY"
           (two_bars 10.1 10.3) 3 "agent" "why" "1d" 0.5).
  vm_compute. reflexivity.
Defined.

(** C5 as stated fails on binary64 numbers. In the example of the
    specification (LONG, entry 100, exit 101, size 10, fee 0.001) the fees
    are 1.0 + 1.01, the binary64 number nearest to 2.01, while
    [0.001 * (100 + 101) * 10] is the next one up, however the product is
    bracketed; the same happens for a SHORT trade from 10.3 to 10.1. *)
Lemma fee_formula_counterexample :
  (exists r,
      snd (execute_trade (H := seconds_reader) (framework 0.001 (Some 0)) "TICK" "BUY"
             example_frame 10 "agent" "why" "1d" 0.01) = Ok r /\
      entry_price r = 100%float /\ exit_price r = 101%float /\
      PrimFloat.eqb (fees r)
        (0.001 * (entry_price r + exit_price r) * position_size r)%float = false /\
      PrimFloat.eqb (fees r)
        (0.001 * ((entry_price r + exit_price r) * position_size r))%float = false) /\
  (exists r,
      snd (execute_trade (H := seconds_reader) (framework 0.001 (Some 0)) "TICK" "SHORT"
             (two_bars 10.3 10.1) 3 "agent" "why" "1d" 0.5) = Ok r /\
      direction r = SHORT /\
      PrimFloat.eqb (fees r)
        (0.001 * (entry_price r + exit_price r) * position_size r)%float = false /\
      PrimFloat.eqb (fees r)
        (0.001 * ((entry_price r + exit_price r) * position_size r))%float = false).
Proof.
  split; eexists; (split; [vm_compute; reflexivity|]); vm_compute; repeat split.
Qed.

Lemma fees_as_computed_witness :
  fees (result_of 0.001 "TICK" "BUY" 10 "agent" "why" "1d" 0.01
          (row_at 0 100 100 100) (101%float, 3600))
  = (100 * 10 * 0.001 + 101 * 10 * 0.001)%float.
Proof.
  apply (fees_as_computed (H := seconds_reader) (framework 0.001 (Some 0)) "TICK" "BUY"
           example_frame 10 "agent" "why" "1d" 0.01).
  vm_compute. reflexivity.
Defined.

(** C2 fails on this input. LONG from 100 with a target of one percent
    ([100 * (1 + 0.01)] is 101) and a horizon of one day: no bar of the
    window reaches 101, so the exit is at the time limit, at the first bar
    after the horizon, whose close happens to be 101; the reason reported
    is the profit target. *)
Theorem time_limit_exit_reported_as_target :
  exists r,
    snd (execute_trade (H := seconds_reader) (framework 0.001 (Some 0)) "TICK" "BUY"
           gap_frame 10 "agent" "why" "1d" 0.01) = Ok r /\
    max_exit_time_of 0 "1d" = Ok 86400 /\
    entry_time r = 0 /\
    List.filter (reaches "BUY" (target_price_of "BUY" (entry_price r) 0.01))
      (List.filter (in_window (entry_time r) 86400) (bars_of gap_frame)) = [] /\
    hd_error (List.filter (at_or_after 86400) (bars_of gap_frame))
    = Some (row_at 120600 101.5 100.9 101) /\
    exit_time r = 120600 /\
    exit_price r = 101%float /\
    exit_reason r = ProfitTargetReached 1.
Proof. eexists. split; [vm_compute; reflexivity|]. vm_compute. repeat split. Qed.

(** C7 as stated fails: with no reference time set, a run over one decision
    completes; the single call raises, the failure is on record, and the
    run returns its metrics with no trade. *)
Lemma missing_reference_counterexample :
  let self := framework 0.001 None in
  let market_data : gmap string DataFrame := {[ "TICK"%string := example_frame ]} in
  let out := run_backtest (H := seconds_reader) self market_data [example_response] in
  reference_date self = None /\
  snd (execute_trade (H := seconds_reader) self "TICK" "BUY" example_frame 10
         "unknown" "" "1d" 0.01) = Raise MissingReferenceDate /\
  snd out = ({| total_trades := 1; win_rate := 0; avg_return := 0;
                max_loss := 0; max_gain := 0 |}, []) /\
  logger (fst (fst out))
  = [ InfoStartingBacktest; InfoProcessingTrade example_response;
      ErrorExecutingTrade MissingReferenceDate;
      InfoBacktestMetrics {| total_trades := 1; win_rate := 0; avg_return := 0;
                             max_loss := 0; max_gain := 0 |} ].
Proof. vm_compute. repeat split. Qed.

Lemma missing_reference_is_skipped_witness :
  (forall tick action df size agent reason tf pct,
      snd (execute_trade (H := seconds_reader) (framework 0.001 None) tick action df size
             agent reason tf pct)
      = Raise MissingReferenceDate) /\
  snd (snd (run_backtest (H := seconds_reader) (framework 0.001 None)
              {[ "TICK"%string := example_frame ]} [example_response])) = [] /\
  total_trades (fst (snd (run_backtest (H := seconds_reader) (framework 0.001 None)
                            {[ "TICK"%string := example_frame ]} [example_response])))
  = length [example_response] /\
  count_errors (logger (fst (fst (run_backtest (H := seconds_reader) (framework 0.001 None)
                                    {[ "TICK"%string := example_frame ]}
                                    [example_response]))))
  = (count_errors (logger (framework 0.001 None)) + length [example_response])%nat.
Proof.
  apply (missing_reference_is_skipped (H := seconds_reader) (framework 0.001 None)
           {[ "TICK"%string := example_frame ]} [example_response]).
  reflexivity.
Defined.

(** C8 as stated fails on a frame whose [Datetime] column is text, as a
    frame read from a file is: the column of the frame given holds text
    before the call and timestamps after it, so the caller's frame is not
    what it was. This happens when the call returns a trade (reference
    time 0) and also when it raises (reference time 7200, after the last
    bar, so that there is no entry data). *)
Lemma caller_frame_overwritten_counterexample :
  is_datetime64_any_dtype iso_frame = false /\
  List.map Datetime iso_frame
  = [Text "1970-01-01 00:00:00"; Text "1970-01-01 01:00:00"] /\
  (exists r,
      snd (execute_trade (H := iso_reader) (framework 0.001 (Some 0)) "TICK" "BUY"
             iso_frame 10 "agent" "why" "1d" 0.01) = Ok r) /\
  List.map Datetime
    (snd (fst (execute_trade (H := iso_reader) (framework 0.001 (Some 0)) "TICK" "BUY"
                 iso_frame 10 "agent" "why" "1d" 0.01)))
  = [Timestamp 0; Timestamp 3600] /\
  snd (fst (execute_trade (H := iso_reader) (framework 0.001 (Some 0)) "TICK" "BUY"
              iso_frame 10 "agent" "why" "1d" 0.01)) <> iso_frame /\
  snd (execute_trade (H := iso_reader) (framework 0.001 (Some 7200)) "TICK" "BUY"
         iso_frame 10 "agent" "why" "1d" 0.01) = Raise (NoEntryData 7200) /\
  List.map Datetime
    (snd (fst (execute_trade (H := iso_reader) (framework 0.001 (Some 7200)) "TICK" "BUY"
                 iso_frame 10 "agent" "why" "1d" 0.01)))
  = [Timestamp 0; Timestamp 3600] /\
  snd (fst (execute_trade (H := iso_reader) (framework 0.001 (Some 7200)) "TICK" "BUY"
              iso_frame 10 "agent" "why" "1d" 0.01)) <> iso_frame.
Proof.
  split; [reflexivity|]. split; [reflexivity|].
  split; [eexists; vm_compute; reflexivity|].
  split; [vm_compute; reflexivity|].
  split; [vm_compute; intros E; discriminate E|].
  split; [vm_compute; reflexivity|].
  split; [vm_compute; reflexivity|].
  vm_compute. intros E. discriminate E.
Qed.

(** The one change a call can make to a frame: a [Datetime] column of text
    is replaced by the timestamps it denotes, the other columns stay. *)
Example text_column_is_converted :
  snd (fst (execute_trade (H := seconds_reader) (framework 0.001 (Some 0)) "TICK" "BUY"
              text_frame 10 "agent" "why" "1d" 0.01))
  = [ bar_at 0 100 100 100; bar_at 3600 101 101 101 ].
Proof. vm_compute. reflexivity. Qed.

(** The symmetric exit of a SHORT trade in the example of the
    specification: the target is 99, first reached by the low of the third
    bar, equality included. *)
Example short_target_hit :
  exists r,
    snd (execute_trade (H := seconds_reader) (framework 0.001 (Some 0)) "TICK" "SHORT"
           example_frame 10 "agent" "why" "1d" 0.01) = Ok r /\
    direction r = SHORT /\
    exit_price r = 99%float /\
    exit_time r = 7200 /\
    exit_reason r = ProfitTargetReached 1.
Proof. eexists. split; [vm_compute; reflexivity|]. vm_compute. repeat split. Qed.

(* ===================================================================== *)
(** * Part III: further properties of the code                            *)
(* ===================================================================== *)

(** ** The two ways out of a trade *)

Section ExitCases.
Context `{Externals}.

(** A returned trade left either at the target, at a bar of the holding
    window that reaches it, or at the time limit, at the close of the first
    bar at or after [max_exit_time], no bar of the window reaching the
    target. *)
Lemma simulate_exit_cases fee ref mx tick action bars size agent reason tf pct pos r :
  simulate fee ref mx tick action bars size agent reason tf pct = Ok (pos, r) ->
  exists e rest,
    List.filter (at_or_after ref) bars = e :: rest /\
    entry_time r = Datetime e /\
    entry_price r = Close e /\
    ((exists x, In x bars /\ in_window (Datetime e) mx x = true /\
                reaches action (target_price_of action (Close e) pct) x = true /\
                exit_time r = Datetime x /\
                exit_price r = target_price_of action (Close e) pct /\
                exit_reason r = ProfitTargetReached (pct * 100)%float)
     \/
     ((forall b, In b bars -> in_window (Datetime e) mx b = true ->
                 reaches action (target_price_of action (Close e) pct) b = false) /\
      exists x rest',
        List.filter (at_or_after mx) bars = x :: rest' /\
        exit_time r = Datetime x /\
        exit_price r = Close x /\
        exit_reason r =
        if PrimFloat.eqb (Close x) (target_price_of action (Close e) pct)
        then ProfitTargetReached (pct * 100)%float
        else TimeBasedExit tf)).
Proof.
  intros S. apply simulate_Ok in S.
  destruct S as (e & rest & found & ex & F & Sc & X & ->).
  exists e, rest. split; [exact F|]. split; [reflexivity|]. split; [reflexivity|].
  pose proof (scan_groupby action (target_price_of action (Close e) pct)
                (List.filter (in_window (Datetime e) mx) bars)) as G.
  rewrite Sc in G. destruct found as [[p t]|].
  - left. destruct G as (-> & x & r & Fx & -> & _).
    inversion X; subst ex.
    assert (In x (x :: r)) as Hx by (left; reflexivity).
    rewrite <- Fx in Hx. apply List.filter_In in Hx. destruct Hx as [Hx Px].
    apply List.filter_In in Hx. destruct Hx as [Hx Wx].
    apply andb_true_iff in Px. destruct Px as [_ Rx].
    exists x. unfold result_of. simpl.
    rewrite (reaches_target_not_nan _ _ _ Rx). repeat split; assumption.
  - right. split.
    + intros b Hb Wb. apply G. apply List.filter_In. auto.
    + unfold time_limit_exit in X.
      destruct (List.filter (at_or_after mx) bars) as [|x rest'] eqn:Fx; [discriminate|].
      inversion X; subst ex. exists x, rest'. repeat split.
Qed.

End ExitCases.

Section TradeTimes.
Context `{Externals}.

(** X1. On a chronological series and with a horizon that does not lie
    before the reference time, every trade a call returns has its times in
    order: the reference time is at most the entry time, which is at most
    the exit time. *)
Theorem trade_times_in_order
  self tick action df size agent reason tf pct ref mx df' r :
  reference_date self = Some ref ->
  max_exit_time_of ref tf = Ok mx ->
  convert_datetime df = Ok df' ->
  chronological (List.map Datetime (bars_of df')) = true ->
  ref <= mx ->
  snd (execute_trade self tick action df size agent reason tf pct) = Ok r ->
  ref <= entry_time r /\ entry_time r <= exit_time r.
Proof.
  intros R M C Ch Le E.
  rewrite (execute_trade_result self tick action df size agent reason tf pct ref mx df' R M C)
    in E.
  destruct (simulate (fee_pct self) ref mx tick action (bars_of df') size agent reason tf pct)
    as [[pos r']|err] eqn:S; [|discriminate].
  inversion E; subst r'. clear E.
  destruct (simulate_exit_cases _ _ _ _ _ _ _ _ _ _ _ _ _ S)
    as (e & rest & F & -> & _ & Cases).
  destruct (first_selected_earliest (at_or_after ref) (bars_of df') e rest Ch F)
    as (He & Pe & Early).
  unfold at_or_after in Pe. apply Z.leb_le in Pe. split; [exact Pe|].
  destruct Cases as [(x & Hx & Wx & _ & -> & _)|(_ & x & rest' & Fx & -> & _)].
  - unfold in_window in Wx. apply andb_true_iff in Wx. destruct Wx as [Wx _].
    apply Z.leb_le in Wx. exact Wx.
  - assert (In x (x :: rest')) as Hx by (left; reflexivity).
    rewrite <- Fx in Hx. apply List.filter_In in Hx. destruct Hx as [Hx Px].
    unfold at_or_after in Px. apply Z.leb_le in Px.
    apply Early; [exact Hx|]. unfold at_or_after. apply Z.leb_le. lia.
Qed.

(** X2. A trade that a call returns with an exit before [max_exit_time]
    left at the target: its exit price is the target price computed from
    its entry price, and the reason reported is the profit target. *)
Theorem early_exit_is_at_target
  self tick action df size agent reason tf pct ref mx r :
  reference_date self = Some ref ->
  max_exit_time_of ref tf = Ok mx ->
  snd (execute_trade self tick action df size agent reason tf pct) = Ok r ->
  exit_time r < mx ->
  exit_price r = target_price_of action (entry_price r) pct /\
  exit_reason r = ProfitTargetReached (pct * 100)%float.
Proof.
  intros R M E Lt.
  apply execute_trade_Ok in E. destruct E as (ref' & mx' & df' & pos & R' & M' & _ & S).
  rewrite R in R'. inversion R'; subst ref'. rewrite M in M'. inversion M'; subst mx'.
  destruct (simulate_exit_cases _ _ _ _ _ _ _ _ _ _ _ _ _ S)
    as (e & rest & F & _ & Pe & Cases).
  rewrite Pe.
  destruct Cases as [(x & _ & _ & _ & _ & Px & Rx)|(_ & x & rest' & Fx & Tx & _)].
  - split; assumption.
  - exfalso. assert (In x (x :: rest')) as Hx by (left; reflexivity).
    rewrite <- Fx in Hx. apply List.filter_In in Hx. destruct Hx as [_ Px].
    unfold at_or_after in Px. apply Z.leb_le in Px. lia.
Qed.

(** X3. The time-limit reason can be trusted: a trade returned with the
    reason "time-based exit" carries the timeframe of the decision, no bar
    of its holding window reaches the target, and it left at the close of
    the first bar at or after [max_exit_time]. *)
Theorem time_based_reason_is_reliable
  self tick action df size agent reason tf pct ref mx df' r tf0 :
  reference_date self = Some ref ->
  max_exit_time_of ref tf = Ok mx ->
  convert_datetime df = Ok df' ->
  snd (execute_trade self tick action df size agent reason tf pct) = Ok r ->
  exit_reason r = TimeBasedExit tf0 ->
  tf0 = tf /\
  (forall b, In b (bars_of df') ->
             in_window (entry_time r) mx b = true ->
             reaches action (target_price_of action (entry_price r) pct) b = false) /\
  exists x rest,
    List.filter (at_or_after mx) (bars_of df') = x :: rest /\
    exit_time r = Datetime x /\
    exit_price r = Close x.
Proof.
  intros R M C E Reason.
  rewrite (execute_trade_result self tick action df size agent reason tf pct ref mx df' R M C)
    in E.
  destruct (simulate (fee_pct self) ref mx tick action (bars_of df') size agent reason tf pct)
    as [[pos r']|err] eqn:S; [|discriminate].
  inversion E; subst r'. clear E.
  destruct (simulate_exit_cases _ _ _ _ _ _ _ _ _ _ _ _ _ S)
    as (e & rest & F & Te & Pe & Cases).
  rewrite Te, Pe.
  destruct Cases as [(x & _ & _ & _ & _ & _ & Rx)|(NoHit & x & rest' & Fx & Tx & Px & Rx)].
  - rewrite Rx in Reason. discriminate.
  - rewrite Rx in Reason.
    destruct (PrimFloat.eqb (Close x) (target_price_of action (Close e) pct));
      [discriminate|].
    inversion Reason. split; [reflexivity|]. split; [exact NoHit|].
    exists x, rest'. auto.
Qed.

End TradeTimes.

Lemma trade_times_in_order_witness :
  0 <= entry_time (result_of 0.001 "TICK" "BUY" 10 "agent" "why" "1d" 0.01
                     (row_at 0 100 100 100) (101%float, 3600)) /\
  entry_time (result_of 0.001 "TICK" "BUY" 10 "agent" "why" "1d" 0.01
                (row_at 0 100 100 100) (101%float, 3600))
  <= exit_time (result_of 0.001 "TICK" "BUY" 10 "agent" "why" "1d" 0.01
                  (row_at 0 100 100 100) (101%float, 3600)).
Proof.
  apply (trade_times_in_order (H := seconds_reader) (framework 0.001 (Some 0)) "TICK" "BUY"
           example_frame 10 "agent" "why" "1d" 0.01 0 86400 example_frame).
  - reflexivity.
  - reflexivity.
  - reflexivity.
  - reflexivity.
  - lia.
  - vm_compute. reflexivity.
Defined.

Lemma early_exit_is_at_target_witness :
  exit_price (result_of 0.001 "TICK" "BUY" 10 "agent" "why" "1d" 0.01
                (row_at 0 100 100 100) (101%float, 3600))
  = target_price_of "BUY"
      (entry_price (result_of 0.001 "TICK" "BUY" 10 "agent" "why" "1d" 0.01
                      (row_at 0 100 100 100) (101%float, 3600))) 0.01 /\
  exit_reason (result_of 0.001 "TICK" "BUY" 10 "agent" "why" "1d" 0.01
                 (row_at 0 100 100 100) (101%float, 3600))
  = ProfitTargetReached (0.01 * 100)%float.
Proof.
  apply (early_exit_is_at_target (H := seconds_reader) (framework 0.001 (Some 0)) "TICK" "BUY"
           example_frame 10 "agent" "why" "1d" 0.01 0 86400).
  - reflexivity.
  - reflexivity.
  - vm_compute. reflexivity.
  - vm_compute. reflexivity.
Defined.

Lemma time_based_reason_is_reliable_witness :
  "1d"%string = "1d"%string /\
  (forall b, In b (bars_of (two_bars 10.1 10.3)) ->
             in_window (entry_time (result_of 0.001 "TICK" "BUY" 3 "agent" "why" "1d" 0.5
                                      (row_at 0 10.1 10.1 10.1) (10.3%float, 86400)))
               86400 b = true ->
             reaches "BUY"
               (target_price_of "BUY"
                  (entry_price (result_of 0.001 "TICK" "BUY" 3 "agent" "why" "1d" 0.5
                                  (row_at 0 10.1 10.1 10.1) (10.3%float, 86400))) 0.5)
               b = false) /\
  exists x rest,
    List.filter (at_or_after 86400) (bars_of (two_bars 10.1 10.3)) = x :: rest /\
    exit_time (result_of 0.001 "TICK" "BUY" 3 "agent" "why" "1d" 0.5
                 (row_at 0 10.1 10.1 10.1) (10.3%float, 86400)) = Datetime x /\
    exit_price (result_of 0.001 "TICK" "BUY" 3 "agent" "why" "1d" 0.5
                  (row_at 0 10.1 10.1 10.1) (10.3%float, 86400)) = Close x.
Proof.
  apply (time_based_reason_is_reliable (H := seconds_reader) (framework 0.001 (Some 0))
           "TICK" "BUY" (two_bars 10.1 10.3) 3 "agent" "why" "1d" 0.5 0 86400
           (two_bars 10.1 10.3)).
  - reflexivity.
  - reflexivity.
  - reflexivity.
  - vm_compute. reflexivity.
  - vm_compute. reflexivity.
Defined.

(** ** What a call does to the framework *)

Section FrameworkEffect.
Context `{Externals}.

Lemma simulate_position fee ref mx tick action bars size agent reason tf pct pos r :
  simulate fee ref mx tick action bars size agent reason tf pct = Ok (pos, r) ->
  pos = position_of r /\ ticker r = tick.
Proof.
  unfold simulate.
  destruct (List.filter (at_or_after ref) bars) as [|e rest]; [discriminate|].
  destruct (scan_days action (target_price_of action (Close e) pct)
              (groupby_date (List.filter (in_window (Datetime e) mx) bars)))
    as [found|err]; simpl; [|discriminate].
  destruct (match found with Some x => Ok x | None => time_limit_exit mx bars end)
    as [ex|err]; simpl; [|discriminate].
  intros E. inversion E; subst. split; reflexivity.
Qed.

(** X4. A call that raises leaves the framework exactly as it was. A call
    that returns a trade appends that one trade after those recorded
    before, replaces the position held for its ticker by the entry side of
    the trade, and changes nothing else: the positions of the other
    tickers, the fee, the reference time and the log stay. *)
Theorem execute_trade_effect self tick action df size agent reason tf pct :
  let out := execute_trade self tick action df size agent reason tf pct in
  match snd out with
  | Ok r =>
      ticker r = tick /\
      fst (fst out) =
      {| fee_pct := fee_pct self;
         reference_date := reference_date self;
         trades := trades self ++ [r];
         current_positions := <[tick := position_of r]> (current_positions self);
         logger := logger self |}
  | Raise _ => fst (fst out) = self
  end.
Proof.
  unfold execute_trade.
  destruct (reference_date self) as [ref|] eqn:R; simpl; [|reflexivity].
  destruct (max_exit_time_of ref tf) as [mx|e]; simpl; [|reflexivity].
  destruct (convert_datetime df) as [df'|e]; simpl; [|reflexivity].
  destruct (simulate (fee_pct self) ref mx tick action (bars_of df') size agent reason tf pct)
    as [[pos r]|e] eqn:S; simpl; [|reflexivity].
  destruct (simulate_position _ _ _ _ _ _ _ _ _ _ _ _ _ S) as [-> T].
  split; [exact T|]. unfold record_trade. simpl. rewrite T, R. reflexivity.
Qed.

End FrameworkEffect.

(** ** What a run leaves behind *)

Section RunEffects.
Context `{Externals}.

Lemma run_backtest_metrics self market_data agent_responses :
  fst (snd (run_backtest self market_data agent_responses))
  = metrics_of (length agent_responses)
      (snd (snd (run_backtest self market_data agent_responses))).
Proof.
  unfold run_backtest, metrics_of. simpl.
  destruct (trades (fst (fold_left process_response agent_responses
                           (reset_state (log self InfoStartingBacktest), market_data))));
    reflexivity.
Qed.

Lemma decision_result_congr self1 self2 market_data response :
  fee_pct self1 = fee_pct self2 ->
  reference_date self1 = reference_date self2 ->
  decision_result self1 market_data response = decision_result self2 market_data response.
Proof.
  intros F R. unfold decision_result.
  destruct (r_ticker response); [|reflexivity].
  destruct (r_action response); [|reflexivity].
  destruct (r_amount response); [|reflexivity].
  destruct (r_expected_timeframe response); [|reflexivity].
  destruct (market_data !! _) as [[|b df]|]; try reflexivity.
  destruct (call_arguments response _) as [[size pct]|e]; [|reflexivity].
  rewrite (execute_trade_congr self1 self2 _ _ (b :: df) (b :: df) _ _ _ _ _ F R eq_refl).
  reflexivity.
Qed.

(** One turn of the loop either skips the decision before any call, or
    makes one call on the frame of the ticker and stores the frame back. *)
Lemma process_response_cases st response :
  let st' := process_response st response in
  (snd st' = snd st /\
   trades (fst st') = trades (fst st) /\
   current_positions (fst st') = current_positions (fst st))
  \/
  (exists tick action df size agent reason tf pct,
      snd st !! tick = Some df /\
      let out := execute_trade (log (fst st) (InfoProcessingTrade response))
                   tick action df size agent reason tf pct in
      snd st' = <[tick := snd (fst out)]> (snd st) /\
      trades (fst st') = trades (fst (fst out)) /\
      current_positions (fst st') = current_positions (fst (fst out))).
Proof.
  destruct st as [s m]. unfold process_response. simpl.
  destruct (r_ticker response) as [tick|]; [|left; auto].
  destruct (r_action response) as [action|]; [|left; auto].
  destruct (r_amount response) as [amount|]; [|left; auto].
  destruct (r_expected_timeframe response) as [tf|]; [|left; auto].
  destruct (m !! tick) as [[|b df]|] eqn:L; [left; auto| |left; auto].
  destruct (call_arguments response amount) as [[size pct]|e]; [|left; auto].
  right. exists tick, action, (b :: df), size,
    (default "unknown"%string (r_persona response)),
    (default ""%string (r_reasoning response)), tf, pct.
  split; [exact L|].
  destruct (execute_trade (log s (InfoProcessingTrade response)) tick action (b :: df) size
              (default "unknown"%string (r_persona response))
              (default ""%string (r_reasoning response)) tf pct) as [[s' df'] res].
  destruct res; simpl; auto.
Qed.

(** The framework after a call, component by component. *)
Lemma execute_trade_records self tick action df size agent reason tf pct :
  let out := execute_trade self tick action df size agent reason tf pct in
  trades (fst (fst out)) = trades self ++ option_list (outcome_to_option (snd out)) /\
  current_positions (fst (fst out))
  = fold_left (fun m r => <[ticker r := position_of r]> m)
      (option_list (outcome_to_option (snd out))) (current_positions self).
Proof.
  unfold execute_trade.
  destruct (reference_date self) as [ref|]; simpl; [|rewrite List.app_nil_r; auto].
  destruct (max_exit_time_of ref tf) as [mx|e]; simpl; [|rewrite List.app_nil_r; auto].
  destruct (convert_datetime df) as [df'|e]; simpl; [|rewrite List.app_nil_r; auto].
  destruct (simulate (fee_pct self) ref mx tick action (bars_of df') size agent reason tf pct)
    as [[pos r]|e] eqn:S; simpl; [|rewrite List.app_nil_r; auto].
  destruct (simulate_position _ _ _ _ _ _ _ _ _ _ _ _ _ S) as [-> T].
  simpl. rewrite T. auto.
Qed.

Lemma positions_of_app ts1 ts2 :
  positions_of (ts1 ++ ts2)
  = fold_left (fun m r => <[ticker r := position_of r]> m) ts2 (positions_of ts1).
Proof. unfold positions_of. apply List.fold_left_app. Qed.

Lemma process_response_positions st response :
  current_positions (fst st) = positions_of (trades (fst st)) ->
  current_positions (fst (process_response st response))
  = positions_of (trades (fst (process_response st response))).
Proof.
  intros Inv.
  destruct (process_response_cases st response) as [(_ & T & P)|Call].
  - rewrite P, T. exact Inv.
  - destruct Call as (tick & action & df & size & agent & reason & tf & pct & _ & Out).
    cbv zeta in Out. destruct Out as (_ & T & P). rewrite P, T.
    pose proof (execute_trade_records (log (fst st) (InfoProcessingTrade response))
                  tick action df size agent reason tf pct) as Rec.
    cbv zeta in Rec. destruct Rec as [Tr Po]. rewrite Tr, Po, positions_of_app.
    simpl. rewrite Inv. reflexivity.
Qed.

Lemma fold_process_response_positions responses : forall st,
  current_positions (fst st) = positions_of (trades (fst st)) ->
  current_positions (fst (fold_left process_response responses st))
  = positions_of (trades (fst (fold_left process_response responses st))).
Proof.
  induction responses as [|response responses IH]; intros st Inv; simpl; [exact Inv|].
  apply IH. apply process_response_positions. exact Inv.
Qed.

Lemma positions_of_lookup ts t :
  positions_of ts !! t = position_of <$> last (trades_on t ts).
Proof.
  induction ts as [|r ts IH] using List.rev_ind.
  - reflexivity.
  - rewrite positions_of_app. simpl. unfold trades_on in *.
    rewrite List.filter_app. simpl.
    destruct (String.eqb (ticker r) t) eqn:E.
    + apply String.eqb_eq in E. subst t.
      rewrite lookup_insert_eq, last_snoc. reflexivity.
    + apply String.eqb_neq in E.
      rewrite lookup_insert_ne by exact E. rewrite List.app_nil_r. exact IH.
Qed.

(** X5. What a framework holds before a run does not reach its result:
    two frameworks with the same fee and the same reference time return
    the same metrics and the same trades for the same market data and
    decisions, whatever trades, positions and log each held. *)
Theorem run_backtest_forgets_earlier_state self1 self2 market_data agent_responses :
  fee_pct self1 = fee_pct self2 ->
  reference_date self1 = reference_date self2 ->
  snd (run_backtest self1 market_data agent_responses)
  = snd (run_backtest self2 market_data agent_responses).
Proof.
  intros F R.
  pose proof (run_backtest_trades self1 market_data agent_responses) as P1.
  pose proof (run_backtest_trades self2 market_data agent_responses) as P2.
  cbv zeta in P1, P2. destruct P1 as (T1 & _ & _), P2 as (T2 & _ & _).
  assert (snd (snd (run_backtest self1 market_data agent_responses))
          = snd (snd (run_backtest self2 market_data agent_responses))) as T.
  { rewrite T1, T2. clear T1 T2. unfold omap.
    induction agent_responses as [|response rs IH]; [reflexivity|].
    simpl. rewrite (decision_result_congr self1 self2 market_data response F R), IH.
    reflexivity. }
  pose proof (run_backtest_metrics self1 market_data agent_responses) as M1.
  pose proof (run_backtest_metrics self2 market_data agent_responses) as M2.
  destruct (run_backtest self1 market_data agent_responses) as [st1 [m1 ts1]].
  destruct (run_backtest self2 market_data agent_responses) as [st2 [m2 ts2]].
  simpl in *. subst. rewrite T. reflexivity.
Qed.

(** X6. A run in which no decision yields a trade (an empty batch
    included) returns no trade and the neutral metrics: [total_trades] is
    the number of decisions and the win rate, the average return, the
    maximum loss and the maximum gain are all zero. *)
Theorem run_without_trades_has_neutral_metrics self market_data agent_responses :
  (forall response, In response agent_responses ->
                    decision_result self market_data response = None) ->
  snd (run_backtest self market_data agent_responses)
  = ({| total_trades := length agent_responses;
        win_rate := 0; avg_return := 0; max_loss := 0; max_gain := 0 |}, []).
Proof.
  intros N.
  pose proof (run_backtest_trades self market_data agent_responses) as P.
  cbv zeta in P. destruct P as (T & _ & _).
  assert (omap (decision_result self market_data) agent_responses = []) as E.
  { clear T. unfold omap.
    induction agent_responses as [|response rs IH]; [reflexivity|].
    simpl. rewrite (N response) by (left; reflexivity).
    apply IH. intros x Hx. apply N. right. exact Hx. }
  rewrite E in T.
  pose proof (run_backtest_metrics self market_data agent_responses) as M.
  destruct (run_backtest self market_data agent_responses) as [st [m ts]].
  simpl in *. subst. reflexivity.
Qed.

(** X7. After a run the framework holds a position for exactly the tickers
    that produced a trade, and for each of them the entry side of the last
    trade produced for it. *)
Theorem positions_after_run self market_data agent_responses t :
  let out := run_backtest self market_data agent_responses in
  current_positions (fst (fst out)) !! t
  = position_of <$> last (trades_on t (snd (snd out))).
Proof.
  cbv zeta. rewrite <- positions_of_lookup.
  unfold run_backtest. simpl. f_equal.
  apply fold_process_response_positions. reflexivity.
Qed.

End RunEffects.

Lemma run_backtest_forgets_earlier_state_witness :
  snd (run_backtest (H := seconds_reader)
         (fst (fst (run_backtest (H := seconds_reader) (framework 0.001 (Some 0))
                      {[ "TICK"%string := example_frame ]} [example_response])))
         {[ "TICK"%string := example_frame ]} [example_response])
  = snd (run_backtest (H := seconds_reader) (framework 0.001 (Some 0))
           {[ "TICK"%string := example_frame ]} [example_response]).
Proof.
  apply (run_backtest_forgets_earlier_state (H := seconds_reader)).
  - reflexivity.
  - reflexivity.
Defined.

Lemma run_without_trades_has_neutral_metrics_witness :
  snd (run_backtest (H := seconds_reader) (framework 0.001 (Some 0))
         {[ "TICK"%string := example_frame ]} [incomplete_response])
  = ({| total_trades := length [incomplete_response];
        win_rate := 0; avg_return := 0; max_loss := 0; max_gain := 0 |}, []).
Proof.
  apply (run_without_trades_has_neutral_metrics (H := seconds_reader)).
  intros response [<-|[]]. reflexivity.
Defined.

(** ** The market data through calls and runs *)

Section MarketDataKept.
Context `{Externals}.

Lemma execute_trade_frame_values self tick action df size agent reason tf pct :
  frame_values (snd (fst (execute_trade self tick action df size agent reason tf pct)))
  = frame_values df.
Proof.
  unfold execute_trade, frame_values.
  destruct (reference_date self) as [ref|]; simpl; [|reflexivity].
  destruct (max_exit_time_of ref tf) as [mx|e]; simpl; [|reflexivity].
  unfold convert_datetime.
  destruct (is_datetime64_any_dtype df); simpl.
  - destruct (simulate (fee_pct self) ref mx tick action (bars_of df) size agent reason tf pct)
      as [[pos r]|e]; reflexivity.
  - destruct (pd_to_datetime df) as [bars|] eqn:P; simpl; [|reflexivity].
    destruct (pd_to_datetime_values df bars P) as [V I].
    destruct (simulate (fee_pct self) ref mx tick action (bars_of (frame_of bars)) size
                agent reason tf pct) as [[pos r]|e]; simpl; rewrite V, I; reflexivity.
Qed.

Lemma execute_trade_frame_converted self tick action df size agent reason tf pct r :
  snd (execute_trade self tick action df size agent reason tf pct) = Ok r ->
  convert_datetime df
  = Ok (snd (fst (execute_trade self tick action df size agent reason tf pct))).
Proof.
  unfold execute_trade.
  destruct (reference_date self) as [ref|]; simpl; [|discriminate].
  destruct (max_exit_time_of ref tf) as [mx|e]; simpl; [|discriminate].
  destruct (convert_datetime df) as [df'|e]; simpl; [|discriminate].
  destruct (simulate (fee_pct self) ref mx tick action (bars_of df') size agent reason tf pct)
    as [[pos r']|e]; simpl; [reflexivity|discriminate].
Qed.

Lemma execute_trade_frame_fixed self tick action df size agent reason tf pct :
  convert_datetime df = Ok df ->
  snd (fst (execute_trade self tick action df size agent reason tf pct)) = df.
Proof.
  intros C. unfold execute_trade.
  destruct (reference_date self) as [ref|]; simpl; [|reflexivity].
  destruct (max_exit_time_of ref tf) as [mx|e]; simpl; [|reflexivity].
  rewrite C.
  destruct (simulate (fee_pct self) ref mx tick action (bars_of df) size agent reason tf pct)
    as [[pos r']|e]; reflexivity.
Qed.

Lemma process_response_values st response t :
  frame_values <$> (snd (process_response st response) !! t)
  = frame_values <$> (snd st !! t).
Proof.
  destruct (process_response_cases st response) as [(M & _ & _)|Call].
  - rewrite M. reflexivity.
  - destruct Call as (tick & action & df & size & agent & reason & tf & pct & L & Out).
    cbv zeta in Out. destruct Out as (M & _ & _). rewrite M.
    destruct (decide (tick = t)) as [->|Ne].
    + rewrite lookup_insert_eq, L. simpl. rewrite execute_trade_frame_values. reflexivity.
    + rewrite lookup_insert_ne by exact Ne. reflexivity.
Qed.

(** X8. A run leaves the market data as it found them: the dictionary has
    the same tickers afterwards, and the frame of each holds, row for row,
    the same open, high, low, close and volume and the same instants. *)
Theorem run_backtest_keeps_market_data self market_data agent_responses t :
  frame_values <$> (snd (fst (run_backtest self market_data agent_responses)) !! t)
  = frame_values <$> (market_data !! t).
Proof.
  unfold run_backtest. simpl.
  generalize (reset_state (log self InfoStartingBacktest)). intros s.
  revert s market_data.
  induction agent_responses as [|response rs IH]; intros s m; simpl; [reflexivity|].
  destruct (process_response (s, m) response) as [s' m'] eqn:P.
  rewrite IH. pose proof (process_response_values (s, m) response t) as V.
  rewrite P in V. exact V.
Qed.

(** X9. Calls compose on a frame: once a call has returned a trade, the
    frame it leaves is the one every later call leaves untouched, and a
    later call returns on it what it would have returned on the frame as
    it was first given. *)
Theorem later_calls_keep_the_frame
  self tick action df size agent reason tf pct r
  self2 tick2 action2 size2 agent2 reason2 tf2 pct2 :
  snd (execute_trade self tick action df size agent reason tf pct) = Ok r ->
  let df1 := snd (fst (execute_trade self tick action df size agent reason tf pct)) in
  snd (fst (execute_trade self2 tick2 action2 df1 size2 agent2 reason2 tf2 pct2)) = df1 /\
  snd (execute_trade self2 tick2 action2 df1 size2 agent2 reason2 tf2 pct2)
  = snd (execute_trade self2 tick2 action2 df size2 agent2 reason2 tf2 pct2).
Proof.
  intros E. cbv zeta.
  pose proof (execute_trade_frame_converted _ _ _ _ _ _ _ _ _ _ E) as C.
  pose proof (convert_datetime_idempotent _ _ C) as C1.
  split.
  - apply execute_trade_frame_fixed. exact C1.
  - apply execute_trade_congr; [reflexivity|reflexivity|]. rewrite C1, C. reflexivity.
Qed.

End MarketDataKept.

Lemma later_calls_keep_the_frame_witness :
  let df1 := snd (fst (execute_trade (H := seconds_reader) (framework 0.001 (Some 0))
                         "TICK" "BUY" text_frame 10 "agent" "why" "1d" 0.01)) in
  snd (fst (execute_trade (H := seconds_reader) (framework 0.002 (Some 0))
              "TICK" "SHORT" df1 5 "other" "because" "1d" 0.02)) = df1 /\
  snd (execute_trade (H := seconds_reader) (framework 0.002 (Some 0))
         "TICK" "SHORT" df1 5 "other" "because" "1d" 0.02)
  = snd (execute_trade (H := seconds_reader) (framework 0.002 (Some 0))
           "TICK" "SHORT" text_frame 5 "other" "because" "1d" 0.02).
Proof.
  apply (later_calls_keep_the_frame (H := seconds_reader) (framework 0.001 (Some 0))
           "TICK" "BUY" text_frame 10 "agent" "why" "1d" 0.01
           (result_of 0.001 "TICK" "BUY" 10 "agent" "why" "1d" 0.01
              (row_at 0 100 100 100) (101%float, 3600))).
  vm_compute. reflexivity.
Defined.

(** ** The extreme returns *)

Section Extremes.
Context `{Externals}.

Lemma leb_refl x : F64.is_nan x = false -> PrimFloat.leb x x = true.
Proof.
  intros N. apply leb_key. repeat split; try assumption.
  right. split; reflexivity.
Qed.

(** [min] of Python on numbers none of which is NaN: an element, below all
    the others. *)
Lemma py_min_least r : forall x,
  F64.is_nan x = false -> Forall (fun y => F64.is_nan y = false) r ->
  In (py_min x r) (x :: r) /\
  forall y, In y (x :: r) -> PrimFloat.leb (py_min x r) y = true.
Proof.
  induction r as [|z r IH]; intros x Nx Nr.
  - simpl. split; [left; reflexivity|]. intros y [<-|[]]. apply leb_refl. exact Nx.
  - inversion Nr as [|? ? Nz Nr']; subst. unfold py_min. simpl.
    destruct (PrimFloat.ltb z x) eqn:L.
    + destruct (IH z Nz Nr') as [In_m Le_m]. split.
      * destruct In_m as [E|In_m]; [right; left; exact E|right; right; exact In_m].
      * intros y [<-|Hy].
        -- eapply leb_trans; [apply Le_m; left; reflexivity|]. apply ltb_leb. exact L.
        -- apply Le_m. exact Hy.
    + destruct (IH x Nx Nr') as [In_m Le_m]. split.
      * destruct In_m as [E|In_m]; [left; exact E|right; right; exact In_m].
      * intros y [<-|[<-|Hy]].
        -- apply Le_m. left. reflexivity.
        -- eapply leb_trans; [apply Le_m; left; reflexivity|].
           apply not_ltb_leb; assumption.
        -- apply Le_m. right. exact Hy.
Qed.

(** [max] of Python on numbers none of which is NaN: an element, above all
    the others. *)
Lemma py_max_greatest r : forall x,
  F64.is_nan x = false -> Forall (fun y => F64.is_nan y = false) r ->
  In (py_max x r) (x :: r) /\
  forall y, In y (x :: r) -> PrimFloat.leb y (py_max x r) = true.
Proof.
  induction r as [|z r IH]; intros x Nx Nr.
  - simpl. split; [left; reflexivity|]. intros y [<-|[]]. apply leb_refl. exact Nx.
  - inversion Nr as [|? ? Nz Nr']; subst. unfold py_max, F64.gtb. simpl.
    destruct (PrimFloat.ltb x z) eqn:L.
    + destruct (IH z Nz Nr') as [In_m Le_m]. split.
      * destruct In_m as [E|In_m]; [right; left; exact E|right; right; exact In_m].
      * intros y [<-|Hy].
        -- eapply leb_trans; [apply ltb_leb; exact L|]. apply Le_m. left. reflexivity.
        -- apply Le_m. exact Hy.
    + destruct (IH x Nx Nr') as [In_m Le_m]. split.
      * destruct In_m as [E|In_m]; [left; exact E|right; right; exact In_m].
      * intros y [<-|[<-|Hy]].
        -- apply Le_m. left. reflexivity.
        -- apply (leb_trans _ x); [apply not_ltb_leb; assumption|].
           apply Le_m. left. reflexivity.
        -- apply Le_m. right. exact Hy.
Qed.

Lemma returns_not_nan (ts : list TradeResult) :
  Forall (fun t => F64.is_nan (pnl_pct t) = false) ts ->
  Forall (fun y => F64.is_nan y = false) (List.map pnl_pct ts).
Proof.
  intros N. apply List.Forall_forall. intros y Hy.
  apply List.in_map_iff in Hy. destruct Hy as (t & <- & Ht).
  rewrite List.Forall_forall in N. apply N. exact Ht.
Qed.

(** X10. When no return is NaN, the maximum loss of a non-empty list of
    trades is the rounded return of one of them, and that return is at
    most the return of every trade of the list. *)
Theorem max_loss_is_least_return (ts : list TradeResult) :
  ts <> [] ->
  Forall (fun t => F64.is_nan (pnl_pct t) = false) ts ->
  exists t, In t ts /\
            _calculate_max_loss ts = round2 (pnl_pct t) /\
            forall u, In u ts -> PrimFloat.leb (pnl_pct t) (pnl_pct u) = true.
Proof.
  intros Ne N. apply returns_not_nan in N.
  unfold _calculate_max_loss.
  destruct ts as [|t0 ts]; [contradiction|]. simpl in *.
  inversion N as [|? ? N0 Nr]; subst.
  destruct (py_min_least (List.map pnl_pct ts) (pnl_pct t0) N0 Nr) as [In_m Le_m].
  change (pnl_pct t0 :: List.map pnl_pct ts) with (List.map pnl_pct (t0 :: ts)) in In_m, Le_m.
  apply List.in_map_iff in In_m. destruct In_m as (t & Et & Ht).
  exists t. split; [exact Ht|]. split; [rewrite Et; reflexivity|].
  intros u Hu. rewrite Et. apply Le_m. apply List.in_map. exact Hu.
Qed.

(** X11. When no return is NaN, the maximum gain of a non-empty list of
    trades is the rounded return of one of them, and that return is at
    least the return of every trade of the list. *)
Theorem max_gain_is_greatest_return (ts : list TradeResult) :
  ts <> [] ->
  Forall (fun t => F64.is_nan (pnl_pct t) = false) ts ->
  exists t, In t ts /\
            _calculate_max_gain ts = round2 (pnl_pct t) /\
            forall u, In u ts -> PrimFloat.leb (pnl_pct u) (pnl_pct t) = true.
Proof.
  intros Ne N. apply returns_not_nan in N.
  unfold _calculate_max_gain.
  destruct ts as [|t0 ts]; [contradiction|]. simpl in *.
  inversion N as [|? ? N0 Nr]; subst.
  destruct (py_max_greatest (List.map pnl_pct ts) (pnl_pct t0) N0 Nr) as [In_m Le_m].
  change (pnl_pct t0 :: List.map pnl_pct ts) with (List.map pnl_pct (t0 :: ts)) in In_m, Le_m.
  apply List.in_map_iff in In_m. destruct In_m as (t & Et & Ht).
  exists t. split; [exact Ht|]. split; [rewrite Et; reflexivity|].
  intros u Hu. rewrite Et. apply Le_m. apply List.in_map. exact Hu.
Qed.

End Extremes.

Lemma max_loss_is_least_return_witness :
  exists t, In t example_trades /\
            _calculate_max_loss (H := seconds_reader) example_trades
            = round2 (Externals := seconds_reader) (pnl_pct t) /\
            forall u, In u example_trades ->
                      PrimFloat.leb (pnl_pct t) (pnl_pct u) = true.
Proof.
  apply (max_loss_is_least_return (H := seconds_reader) example_trades).
  - discriminate.
  - repeat constructor.
Defined.

Lemma max_gain_is_greatest_return_witness :
  exists t, In t example_trades /\
            _calculate_max_gain (H := seconds_reader) example_trades
            = round2 (Externals := seconds_reader) (pnl_pct t) /\
            forall u, In u example_trades ->
                      PrimFloat.leb (pnl_pct u) (pnl_pct t) = true.
Proof.
  apply (max_gain_is_greatest_return (H := seconds_reader) example_trades).
  - discriminate.
  - repeat constructor.
Defined.

(** ** The validator of decisions and the run *)

Section ValidatedDecisions.
Context `{Externals}.

Lemma validate_accepted response available_tickers accepted :
  validate_trading_decision response available_tickers = Accepted accepted ->
  accepted = response /\
  exists action tick amount tf profit,
    r_action response = Some action /\
    r_ticker response = Some tick /\
    r_amount response = Some amount /\
    r_expected_timeframe response = Some tf /\
    r_expected_profit_percentage response = Some profit /\
    str_in action valid_actions = true /\
    str_in tick available_tickers = true /\
    numeric_checks amount profit = None /\
    endswith_one_of ["d"; "w"; "m"]%char tf = true.
Proof.
  unfold validate_trading_decision.
  destruct (r_action response) as [action|]; [|discriminate].
  destruct (r_ticker response) as [tick|]; [|discriminate].
  destruct (r_amount response) as [amount|]; [|discriminate].
  destruct (r_expected_timeframe response) as [tf|]; [|discriminate].
  destruct (r_expected_profit_percentage response) as [profit|]; [|discriminate].
  destruct (str_in action valid_actions) eqn:A; simpl; [|discriminate].
  destruct (str_in tick available_tickers) eqn:T; simpl; [|discriminate].
  destruct (numeric_checks amount profit) eqn:N; [discriminate|].
  destruct (endswith_one_of ["d"; "w"; "m"]%char tf) eqn:E; simpl; [|discriminate].
  intros V. inversion V. split; [reflexivity|].
  exists action, tick, amount, tf, profit. repeat split; auto.
Qed.

(** X12. A decision that the validator accepts never fails the conversion
    of its arguments in a run: both numbers are read by [float] without
    error, the amount is not at or below zero and the expected profit lies
    between 0 and 100. *)
Theorem accepted_decision_has_usable_numbers response available_tickers accepted :
  validate_trading_decision response available_tickers = Accepted accepted ->
  exists amount size pct,
    r_amount accepted = Some amount /\
    call_arguments accepted amount = Ok (size, pct) /\
    PrimFloat.leb size 0 = false /\
    PrimFloat.leb 0 pct = true /\
    PrimFloat.leb pct 100 = true.
Proof.
  intros V. apply validate_accepted in V.
  destruct V as (-> & action & tick & amount & tf & profit
                 & _ & _ & Am & _ & Pr & _ & _ & N & _).
  unfold numeric_checks in N.
  destruct (py_float amount) as [a|e] eqn:Fa; [|discriminate].
  destruct (PrimFloat.leb a 0) eqn:La; [discriminate|].
  destruct (py_float profit) as [p|e] eqn:Fp; [|discriminate].
  destruct (PrimFloat.leb 0 p) eqn:L0; [|discriminate].
  destruct (PrimFloat.leb p 100) eqn:L1; [|discriminate].
  exists amount, a, p.
  split; [exact Am|]. split; [|auto].
  unfold call_arguments. rewrite Fa, Pr. simpl. rewrite Fp. reflexivity.
Qed.

(** X13. The validator does not check what [execute_trade] needs of the
    timeframe: it accepts any timeframe that ends in d, w or m, while a
    decision whose timeframe does not end in d (so an accepted one that
    ends in w or m) yields no trade in any run. *)
Theorem accepted_timeframe_can_be_unusable
  response available_tickers accepted self market_data tf :
  validate_trading_decision response available_tickers = Accepted accepted ->
  r_expected_timeframe accepted = Some tf ->
  endswith_d tf = false ->
  decision_result self market_data accepted = None.
Proof.
  intros V T P. apply validate_accepted in V.
  destruct V as (-> & action & tick & amount & tf' & profit
                 & Ac & Ti & Am & Tf & Pr & _).
  rewrite Tf in T. inversion T; subst tf'.
  unfold decision_result. rewrite Ac, Ti, Am, Tf.
  destruct (market_data !! tick) as [[|b df]|]; try reflexivity.
  destruct (call_arguments response amount) as [[size pct]|err]; [|reflexivity].
  unfold execute_trade.
  destruct (reference_date self) as [ref|]; [|reflexivity].
  unfold max_exit_time_of, parse_timeframe. rewrite P. reflexivity.
Qed.

End ValidatedDecisions.

Lemma accepted_decision_has_usable_numbers_witness :
  exists amount size pct,
    r_amount example_response = Some amount /\
    call_arguments (H := seconds_reader) example_response amount = Ok (size, pct) /\
    PrimFloat.leb size 0 = false /\
    PrimFloat.leb 0 pct = true /\
    PrimFloat.leb pct 100 = true.
Proof.
  apply (accepted_decision_has_usable_numbers (H := seconds_reader) example_response
           ["TICK"; "TOCK"]%string).
  vm_compute. reflexivity.
Defined.

Lemma accepted_timeframe_can_be_unusable_witness :
  decision_result (H := seconds_reader) (framework 0.001 (Some 0))
    {[ "TICK"%string := example_frame ]} weekly_response = None.
Proof.
  apply (accepted_timeframe_can_be_unusable (H := seconds_reader) weekly_response
           ["TICK"; "TOCK"]%string weekly_response (framework 0.001 (Some 0))
           {[ "TICK"%string := example_frame ]} "2w").
  - vm_compute. reflexivity.
  - reflexivity.
  - reflexivity.
Defined.

(** ** The slices of the market data *)

Section Slices.
Context `{Externals}.

Lemma in_period_timestamp start_date end_date b :
  in_period start_date end_date b = true ->
  exists t, Datetime b = Timestamp t /\ start_date <= t < end_date.
Proof.
  unfold in_period. destruct (Datetime b) as [t|s]; [|discriminate].
  intros E. apply andb_true_iff in E. destruct E as [L U].
  apply Z.leb_le in L. apply Z.ltb_lt in U. exists t. split; [reflexivity|lia].
Qed.

(** What [_slice_market_data] returns for a ticker. *)
Lemma slice_lookup market_data start_date end_date sliced t df :
  _slice_market_data market_data start_date end_date = inr sliced ->
  sliced !! t = Some df ->
  exists df0,
    market_data !! t = Some df0 /\
    df = List.filter (in_period start_date end_date) df0 /\
    (10 <= length df)%nat.
Proof.
  unfold _slice_market_data.
  destruct (size market_data =? 0)%nat; [discriminate|].
  destruct (end_date <=? start_date); [discriminate|].
  destruct (existsb _ (map_to_list market_data)); [discriminate|].
  destruct (size (omap (slice_frame start_date end_date) market_data) =? 0)%nat;
    [discriminate|].
  intros E. inversion E; subst sliced. rewrite lookup_omap.
  destruct (market_data !! t) as [df0|]; simpl; [|discriminate].
  unfold slice_frame. destruct df0 as [|b df0]; [discriminate|].
  destruct (length (List.filter (in_period start_date end_date) (b :: df0)) <? 10)%nat
    eqn:L; [discriminate|].
  intros E'. inversion E'; subst df. apply Nat.ltb_ge in L.
  exists (b :: df0). auto.
Qed.

Lemma in_period_is_datetime64 start_date end_date df :
  is_datetime64_any_dtype (List.filter (in_period start_date end_date) df) = true.
Proof.
  unfold is_datetime64_any_dtype. apply List.forallb_forall. intros b Hb.
  apply List.filter_In in Hb. destruct Hb as [_ P].
  apply in_period_timestamp in P. destruct P as (t & -> & _). reflexivity.
Qed.

Lemma bars_of_in_period start_date end_date df :
  Forall (fun b => in_period start_date end_date b = true) df ->
  length (bars_of df) = length df /\
  Forall (fun b => start_date <= Datetime b < end_date) (bars_of df).
Proof.
  induction df as [|b df IH]; intros A; [split; [reflexivity|constructor]|].
  inversion A as [|? ? Pb A']; subst. destruct (IH A') as [L Fa].
  apply in_period_timestamp in Pb. destruct Pb as (t & E & R).
  unfold bars_of, omap in *. simpl. rewrite E. simpl. rewrite L.
  split; [reflexivity|]. constructor; [simpl; exact R|exact Fa].
Qed.

(** X14. Every frame that [_slice_market_data] returns comes from the frame
    of the same ticker: it consists of the rows of that frame that lie in
    the period (start included, end excluded), in their order, and has at
    least ten rows, all with timestamps. *)
Theorem sliced_frames_lie_in_the_period market_data start_date end_date sliced t df :
  _slice_market_data market_data start_date end_date = inr sliced ->
  sliced !! t = Some df ->
  (exists df0, market_data !! t = Some df0 /\
               df = List.filter (in_period start_date end_date) df0) /\
  (10 <= length df)%nat /\
  start_date < end_date /\
  forall b, In b df ->
            exists time, Datetime b = Timestamp time /\ start_date <= time < end_date.
Proof.
  intros S L.
  destruct (slice_lookup market_data start_date end_date sliced t df S L)
    as (df0 & L0 & E & Len).
  split; [exists df0; auto|]. split; [exact Len|]. split.
  - unfold _slice_market_data in S.
    destruct (size market_data =? 0)%nat; [discriminate|].
    destruct (end_date <=? start_date) eqn:Le; [discriminate|].
    apply Z.leb_gt in Le. exact Le.
  - intros b Hb. rewrite E in Hb. apply List.filter_In in Hb. destruct Hb as [_ P].
    apply in_period_timestamp. exact P.
Qed.

(** X15. Validation data cut at the end of the forward period leave no
    room for an exit at the time limit: on a frame sliced from the
    reference time to [end_date], a decision whose [max_exit_time] is not
    before [end_date] either leaves at its target, before [end_date], or
    fails for want of a bar at or after [max_exit_time]. *)
Theorem sliced_data_allow_no_time_limit_exit
  market_data ref end_date sliced t df self tick action size agent reason tf pct mx :
  _slice_market_data market_data ref end_date = inr sliced ->
  sliced !! t = Some df ->
  reference_date self = Some ref ->
  max_exit_time_of ref tf = Ok mx ->
  end_date <= mx ->
  match snd (execute_trade self tick action df size agent reason tf pct) with
  | Ok r =>
      exit_price r = target_price_of action (entry_price r) pct /\
      exit_reason r = ProfitTargetReached (pct * 100)%float /\
      exit_time r < end_date
  | Raise e => e = NoExitData mx
  end.
Proof.
  intros S L R M Le.
  destruct (slice_lookup market_data ref end_date sliced t df S L) as (df0 & _ & E & Len).
  assert (convert_datetime df = Ok df) as C.
  { unfold convert_datetime. rewrite E, in_period_is_datetime64. reflexivity. }
  assert (Forall (fun b => in_period ref end_date b = true) df) as A.
  { apply List.Forall_forall. intros b Hb. rewrite E in Hb.
    apply List.filter_In in Hb. tauto. }
  destruct (bars_of_in_period ref end_date df A) as [Lb Fb].
  rewrite List.Forall_forall in Fb.
  assert (List.filter (at_or_after mx) (bars_of df) = []) as NoExit.
  { apply filter_nil_none. intros x Hx. unfold at_or_after. apply Z.leb_gt.
    specialize (Fb x Hx). lia. }
  rewrite (execute_trade_result self tick action df size agent reason tf pct ref mx df R M C).
  destruct (simulate (fee_pct self) ref mx tick action (bars_of df) size agent reason tf pct)
    as [[pos r]|err] eqn:Sim.
  - destruct (simulate_exit_cases _ _ _ _ _ _ _ _ _ _ _ _ _ Sim)
      as (e & rest & F & Te & Pe & Cases).
    destruct Cases as [(x & Hx & _ & _ & Tx & Px & Rx)|(_ & x & rest' & Fx & _)].
    + rewrite Pe. split; [exact Px|]. split; [exact Rx|].
      rewrite Tx. specialize (Fb x Hx). lia.
    + rewrite NoExit in Fx. discriminate.
  - unfold simulate in Sim.
    destruct (List.filter (at_or_after ref) (bars_of df)) as [|e rest] eqn:F.
    + exfalso. destruct (bars_of df) as [|b bs] eqn:B; [simpl in Lb; lia|].
      assert (at_or_after ref b = true) as Pb.
      { unfold at_or_after. apply Z.leb_le. specialize (Fb b (or_introl eq_refl)). lia. }
      simpl in F. rewrite Pb in F. discriminate.
    + pose proof (scan_groupby action (target_price_of action (Close e) pct)
                    (List.filter (in_window (Datetime e) mx) (bars_of df))) as Sc.
      destruct (scan_days action (target_price_of action (Close e) pct)
                  (groupby_date (List.filter (in_window (Datetime e) mx) (bars_of df))))
        as [[hit|]|err']; [discriminate| |contradiction].
      simpl in Sim. unfold time_limit_exit in Sim. rewrite NoExit in Sim.
      simpl in Sim. inversion Sim. reflexivity.
Qed.

End Slices.

Lemma sliced_frames_lie_in_the_period_witness :
  (exists df0, ({[ "TICK"%string := ten_bars ]} : gmap string DataFrame) !! "TICK"%string
               = Some df0 /\
               ten_bars = List.filter (in_period 0 604800) df0) /\
  (10 <= length ten_bars)%nat /\
  0 < 604800 /\
  forall b, In b ten_bars ->
            exists time, Datetime b = Timestamp time /\ 0 <= time < 604800.
Proof.
  apply (sliced_frames_lie_in_the_period {[ "TICK"%string := ten_bars ]} 0 604800
           {[ "TICK"%string := ten_bars ]} "TICK" ten_bars).
  - vm_compute. reflexivity.
  - vm_compute. reflexivity.
Defined.

Lemma sliced_data_allow_no_time_limit_exit_witness :
  match snd (execute_trade (H := seconds_reader) (framework 0.001 (Some 0)) "TICK" "BUY"
               ten_bars 10 "agent" "why" "7d" 0.01) with
  | Ok r =>
      exit_price r = target_price_of "BUY" (entry_price r) 0.01 /\
      exit_reason r = ProfitTargetReached (0.01 * 100)%float /\
      exit_time r < 604800
  | Raise e => e = NoExitData 604800
  end.
Proof.
  apply (sliced_data_allow_no_time_limit_exit (H := seconds_reader)
           {[ "TICK"%string := ten_bars ]} 0 604800 {[ "TICK"%string := ten_bars ]}
           "TICK" ten_bars (framework 0.001 (Some 0)) "TICK" "BUY" 10 "agent" "why"
           "7d" 0.01 604800).
  - vm_compute. reflexivity.
  - vm_compute. reflexivity.
  - reflexivity.
  - reflexivity.
  - lia.
Defined.

(** ** The report after a run *)

Section ReportAfterRun.
Context `{Externals} `{ReportFormat}.

Lemma positions_of_dom ts :
  dom (positions_of ts) = list_to_set (List.map ticker ts).
Proof.
  induction ts as [|r ts IH] using List.rev_ind.
  - unfold positions_of. simpl. apply dom_empty_L.
  - rewrite positions_of_app. simpl. rewrite dom_insert_L, IH.
    rewrite List.map_app. simpl. rewrite list_to_set_snoc_L.
    apply (comm_L (∪)).
Qed.

Lemma count_distinct_le l : (count_distinct l <= length l)%nat.
Proof.
  unfold count_distinct. induction l as [|x l IH].
  - rewrite list_to_set_nil, size_empty. reflexivity.
  - rewrite list_to_set_cons, size_union_alt, size_singleton. cbn [length].
    assert (size (list_to_set l ∖ {[x]} : gset string) <= size (list_to_set l : gset string))%nat
      as Le by (apply subseteq_size, subseteq_difference_l; reflexivity).
    lia.
Qed.

(** X16. The report generated after a run agrees with what the run
    returned: its performance figures are the win rate, average return,
    maximum loss and maximum gain of the metrics of the run; its
    [total_trades] counts the trades produced, which is at most the
    [total_trades] of the metrics (the number of decisions); its number of
    distinct tickers is the number of positions the framework holds and is
    at most the number of trades; and its trade log has one entry per
    trade, in order. *)
Theorem report_agrees_with_run self market_data agent_responses :
  let out := run_backtest self market_data agent_responses in
  let metrics := fst (snd out) in
  let produced := snd (snd out) in
  let report := generate_report (fst (fst out)) in
  performance_metrics report
  = {| pm_win_rate := win_rate metrics;
       pm_avg_return := avg_return metrics;
       pm_max_loss := max_loss metrics;
       pm_max_gain := max_gain metrics |} /\
  bs_total_trades (backtest_summary report) = length produced /\
  (bs_total_trades (backtest_summary report) <= total_trades metrics)%nat /\
  bs_unique_tickers (backtest_summary report) = size (current_positions (fst (fst out))) /\
  (bs_unique_tickers (backtest_summary report)
   <= bs_total_trades (backtest_summary report))%nat /\
  trade_log report = List.map _format_trade produced.
Proof.
  cbv zeta.
  pose proof (run_backtest_trades self market_data agent_responses) as P.
  cbv zeta in P. destruct P as (T & S & E).
  pose proof (run_backtest_metrics self market_data agent_responses) as M.
  pose proof (run_backtest_total_trades self market_data agent_responses) as N.
  assert (current_positions (fst (fst (run_backtest self market_data agent_responses)))
          = positions_of (trades (fst (fst (run_backtest self market_data agent_responses)))))
    as Pos.
  { unfold run_backtest. simpl. apply fold_process_response_positions. reflexivity. }
  unfold generate_report.
  cbn [performance_metrics backtest_summary trade_log bs_total_trades bs_unique_tickers].
  rewrite Pos, S.
  split.
  { rewrite M. unfold metrics_of.
    destruct (snd (snd (run_backtest self market_data agent_responses))); reflexivity. }
  split; [reflexivity|]. split.
  { rewrite N, T. clear. unfold omap.
    induction agent_responses as [|response rs IH]; simpl; [lia|].
    destruct (decision_result self market_data response); simpl; lia. }
  split.
  { rewrite <- size_dom, positions_of_dom. reflexivity. }
  split; [|reflexivity].
  rewrite <- (List.length_map ticker). apply count_distinct_le.
Qed.

End ReportAfterRun.

(** ** The summary of the trade log *)

Section Summary.

Lemma tally_succ n : tally (n + 1) = Some (default 0%nat (tally n) + 1)%nat.
Proof. destruct n; simpl; [reflexivity|]. f_equal. Qed.

Lemma count_up_lookup counts pre key k :
  (forall k', counts !! k' = tally (occurrences k' pre)) ->
  count_up key counts !! k = tally (occurrences k (pre ++ [Some key])).
Proof.
  intros Inv. unfold count_up, occurrences in *.
  rewrite List.filter_app, List.length_app. simpl.
  destruct (String.eqb key k) eqn:E.
  - apply String.eqb_eq in E. subst k.
    rewrite lookup_insert_eq, Inv. simpl. rewrite tally_succ. reflexivity.
  - apply String.eqb_neq in E. rewrite lookup_insert_ne by exact E.
    simpl. rewrite Nat.add_0_r. apply Inv.
Qed.

Lemma add_trade_Ok metrics trade metrics' :
  add_trade metrics trade = Ok metrics' ->
  exists direction tick,
    lt_direction trade = Some direction /\
    lt_ticker trade = Some tick /\
    sm_total_trades metrics' = sm_total_trades metrics /\
    sm_directions metrics' = count_up direction (sm_directions metrics) /\
    sm_tickers metrics' = count_up tick (sm_tickers metrics) /\
    sm_total_pnl metrics'
    = match lt_pnl trade with
      | Some p => (sm_total_pnl metrics + p)%float
      | None => sm_total_pnl metrics
      end /\
    sm_avg_pnl metrics'
    = match lt_pnl trade with
      | Some p => ((sm_total_pnl metrics + p) / F64.of_nat (sm_total_trades metrics))%float
      | None => sm_avg_pnl metrics
      end.
Proof.
  unfold add_trade.
  destruct (lt_direction trade) as [direction|]; simpl; [|discriminate].
  destruct (lt_ticker trade) as [tick|]; simpl; [|discriminate].
  destruct (lt_pnl trade) as [p|]; intros E; inversion E; subst; simpl;
    exists direction, tick; repeat split.
Qed.

Lemma add_trades_counts logged : forall metrics pre_d pre_t result,
  add_trades metrics logged = Ok result ->
  (forall k, sm_directions metrics !! k = tally (occurrences k pre_d)) ->
  (forall k, sm_tickers metrics !! k = tally (occurrences k pre_t)) ->
  sm_total_trades result = sm_total_trades metrics /\
  (forall k, sm_directions result !! k
             = tally (occurrences k (pre_d ++ List.map lt_direction logged))) /\
  (forall k, sm_tickers result !! k
             = tally (occurrences k (pre_t ++ List.map lt_ticker logged))).
Proof.
  induction logged as [|trade rest IH]; intros metrics pre_d pre_t result E Id It.
  - simpl in E. inversion E; subst. rewrite !List.app_nil_r. auto.
  - simpl in E. destruct (add_trade metrics trade) as [m1|err] eqn:A; [|discriminate].
    simpl in E. apply add_trade_Ok in A.
    destruct A as (direction & tick & Ed & Et & N1 & D1 & T1 & _).
    destruct (IH m1 (pre_d ++ [Some direction]) (pre_t ++ [Some tick]) result E)
      as (N & D & T).
    + intros k. rewrite D1. apply count_up_lookup. exact Id.
    + intros k. rewrite T1. apply count_up_lookup. exact It.
    + simpl. rewrite Ed, Et. rewrite <- !List.app_assoc in D, T. simpl in D, T.
      split; [congruence|]. split; assumption.
Qed.

Lemma add_trades_pnl logged : forall metrics result,
  add_trades metrics logged = Ok result ->
  sm_total_pnl result = fold_left PrimFloat.add (omap lt_pnl logged) (sm_total_pnl metrics) /\
  sm_avg_pnl result
  = match omap lt_pnl logged with
    | [] => sm_avg_pnl metrics
    | _ => (sm_total_pnl result / F64.of_nat (sm_total_trades metrics))%float
    end.
Proof.
  unfold omap.
  induction logged as [|trade rest IH]; intros metrics result E.
  - simpl in E. inversion E; subst. split; reflexivity.
  - simpl in E. destruct (add_trade metrics trade) as [m1|err] eqn:A; [|discriminate].
    simpl in E. apply add_trade_Ok in A.
    destruct A as (direction & tick & _ & _ & N1 & _ & _ & P1 & A1).
    destruct (IH m1 result E) as (P & Av). simpl.
    destruct (lt_pnl trade) as [p|]; simpl.
    + split; [rewrite P, P1; reflexivity|].
      rewrite Av, N1.
      destruct (list_omap LoggedTrade float lt_pnl rest) eqn:O; [|reflexivity].
      simpl in P. rewrite A1, P, P1. reflexivity.
    + split; [rewrite P, P1; reflexivity|]. rewrite Av, A1, N1. reflexivity.
Qed.

Lemma add_trades_fails logged : forall metrics,
  match add_trades metrics logged with
  | Ok _ => Forall has_keys logged
  | Raise e =>
      exists before trade after,
        logged = before ++ trade :: after /\
        Forall has_keys before /\
        ((lt_direction trade = None /\ e = KeyError "direction") \/
         (is_Some (lt_direction trade) /\ lt_ticker trade = None /\ e = KeyError "ticker"))
  end.
Proof.
  induction logged as [|trade rest IH]; intros metrics; simpl; [constructor|].
  destruct (add_trade metrics trade) as [m1|err] eqn:A; simpl.
  - apply add_trade_Ok in A. destruct A as (direction & tick & Ed & Et & _).
    assert (has_keys trade) as K by (split; [rewrite Ed|rewrite Et]; eexists; reflexivity).
    specialize (IH m1). destruct (add_trades m1 rest) as [result|e].
    + constructor; assumption.
    + destruct IH as (before & tr & after & -> & Fb & Cases).
      exists (trade :: before), tr, after. split; [reflexivity|].
      split; [constructor; assumption|exact Cases].
  - exists [], trade, rest. split; [reflexivity|]. split; [constructor|].
    unfold add_trade in A.
    destruct (lt_direction trade) as [direction|]; simpl in A.
    + right. split; [eexists; reflexivity|].
      destruct (lt_ticker trade) as [tick|]; simpl in A.
      * destruct (lt_pnl trade); discriminate.
      * inversion A. auto.
    + left. inversion A. auto.
Qed.

(** X17. When [calculate_metrics] returns, [total_trades] is the number of
    trades of the log, and the two dictionaries count them: a direction
    (a ticker) has an entry exactly when some trade has it, and the entry
    is the number of trades that have it. *)
Theorem calculate_metrics_counts logged metrics :
  calculate_metrics logged = Ok metrics ->
  sm_total_trades metrics = length logged /\
  (forall d, sm_directions metrics !! d
             = tally (occurrences d (List.map lt_direction logged))) /\
  (forall t, sm_tickers metrics !! t
             = tally (occurrences t (List.map lt_ticker logged))).
Proof.
  intros E. unfold calculate_metrics in E.
  apply (add_trades_counts logged _ [] [] metrics E); intros k; apply lookup_empty.
Qed.

(** X18. When [calculate_metrics] returns, the total profit and loss is the
    sum, from zero and in the order of the log, of the profits and losses
    that the trades carry; the average is zero when no trade carries one,
    and otherwise the total divided by the number of all trades of the
    log, with or without a profit and loss. *)
Theorem calculate_metrics_pnl logged metrics :
  calculate_metrics logged = Ok metrics ->
  sm_total_pnl metrics = fold_left PrimFloat.add (omap lt_pnl logged) 0%float /\
  sm_avg_pnl metrics
  = match omap lt_pnl logged with
    | [] => 0%float
    | _ => (sm_total_pnl metrics / F64.of_nat (length logged))%float
    end.
Proof.
  intros E. unfold calculate_metrics in E.
  apply (add_trades_pnl logged _ metrics E).
Qed.

(** X19. [calculate_metrics] fails exactly on a log with a trade that lacks
    its direction or its ticker: it returns when every trade has both, and
    otherwise raises the [KeyError] of the first key missing in the first
    such trade, the direction being looked up before the ticker. *)
Theorem calculate_metrics_fails_on_missing_key logged :
  match calculate_metrics logged with
  | Ok _ => Forall has_keys logged
  | Raise e =>
      exists before trade after,
        logged = before ++ trade :: after /\
        Forall has_keys before /\
        ((lt_direction trade = None /\ e = KeyError "direction") \/
         (is_Some (lt_direction trade) /\ lt_ticker trade = None /\ e = KeyError "ticker"))
  end.
Proof. unfold calculate_metrics. apply add_trades_fails. Qed.

End Summary.

Lemma calculate_metrics_counts_witness :
  sm_total_trades
    {| sm_total_trades := 3;
       sm_directions := {[ "LONG"%string := 2%nat; "SHORT"%string := 1%nat ]};
       sm_tickers := {[ "TICK"%string := 2%nat; "TOCK"%string := 1%nat ]};
       sm_avg_pnl := ((0 + 7.99 + -2.5) / 3)%float;
       sm_total_pnl := (0 + 7.99 + -2.5)%float |} = length example_log /\
  (forall d, ({[ "LONG"%string := 2%nat; "SHORT"%string := 1%nat ]} : gmap string nat) !! d
             = tally (occurrences d (List.map lt_direction example_log))) /\
  (forall t, ({[ "TICK"%string := 2%nat; "TOCK"%string := 1%nat ]} : gmap string nat) !! t
             = tally (occurrences t (List.map lt_ticker example_log))).
Proof.
  apply (calculate_metrics_counts example_log).
  vm_compute. reflexivity.
Defined.

Lemma calculate_metrics_pnl_witness :
  (0 + 7.99 + -2.5)%float = fold_left PrimFloat.add (omap lt_pnl example_log) 0%float /\
  ((0 + 7.99 + -2.5) / 3)%float
  = match omap lt_pnl example_log with
    | [] => 0%float
    | _ => ((0 + 7.99 + -2.5) / F64.of_nat (length example_log))%float
    end.
Proof.
  apply (calculate_metrics_pnl example_log
           {| sm_total_trades := 3;
              sm_directions := {[ "LONG"%string := 2%nat; "SHORT"%string := 1%nat ]};
              sm_tickers := {[ "TICK"%string := 2%nat; "TOCK"%string := 1%nat ]};
              sm_avg_pnl := ((0 + 7.99 + -2.5) / 3)%float;
              sm_total_pnl := (0 + 7.99 + -2.5)%float |}).
  vm_compute. reflexivity.
Defined.
